(** * AB3-LF-datamesh: the consumer bootstrap and its IAM provisioning routines

    A shallow embedding of [data_mesh_util/lib/utils.py] and
    [data_mesh_util/DataMeshConsumer.py].  Python values that travel through
    policy documents are a small JSON-like data type, exceptions are an
    explicit result type, and the calls against the IAM and STS endpoints are
    state transformers over an in-memory account that also records every call
    and its outcome. *)

From stdpp Require Import base strings list gmap.

Local Open Scope string_scope.
Local Open Scope list_scope.

(** ** Python values and exceptions *)

(** The values that occur in trust and policy documents.  A [dict] keeps its
    insertion order, as in Python. *)
#[local] Unset Elimination Schemes.
Inductive pyval :=
| PNone
| PStr (s : string)
| PList (l : list pyval)
| PDict (kv : list (string * pyval)).
#[local] Set Elimination Schemes.

Inductive exn :=
| NoSuchEntityException
| EntityAlreadyExistsException
| ClientError (code : string)
| KeyError (key : string)
| TypeError
| AttributeError
| IndexError
| FileNotFoundError (path : string)
| ValueError
| PyException (msg : string).

Inductive res (A : Type) :=
| Ok (a : A)
| Raise (e : exn).
Arguments Ok {A} a.
Arguments Raise {A} e.

#[export] Instance res_ret : MRet res := @Ok.
#[export] Instance res_bind : MBind res := fun A B f m =>
  match m with
  | Ok a => f a
  | Raise e => Raise e
  end.

(** [d.get(k)] on the association list behind a dict. *)
Fixpoint dict_get (k : string) (kv : list (string * pyval)) : option pyval :=
  match kv with
  | [] => None
  | (k', v) :: rest => if String.eqb k' k then Some v else dict_get k rest
  end.

(** [d[k] = v]: an existing key keeps its position, a new key goes last. *)
Fixpoint dict_set (k : string) (v : pyval) (kv : list (string * pyval))
  : list (string * pyval) :=
  match kv with
  | [] => [(k, v)]
  | (k', v') :: rest =>
      if String.eqb k' k then (k, v) :: rest else (k', v') :: dict_set k v rest
  end.

(** [x.get(k)] *)
Definition py_get (x : pyval) (k : string) : res pyval :=
  match x with
  | PDict kv => Ok (default PNone (dict_get k kv))
  | _ => Raise AttributeError
  end.

(** [x[0]] *)
Definition py_index0 (x : pyval) : res pyval :=
  match x with
  | PList (a :: _) => Ok a
  | PList [] => Raise IndexError
  | PStr (String c _) => Ok (PStr (String c ""))
  | PStr "" => Raise IndexError
  | PDict _ => Raise (KeyError "0")
  | PNone => Raise TypeError
  end.

(** [x[k]] for a string key *)
Definition py_getitem (x : pyval) (k : string) : res pyval :=
  match x with
  | PDict kv =>
      match dict_get k kv with
      | Some v => Ok v
      | None => Raise (KeyError k)
      end
  | _ => Raise TypeError
  end.

(** [x[k] = v] for a string key; the result is the container after the
    assignment. *)
Definition py_setitem (x : pyval) (k : string) (v : pyval) : res pyval :=
  match x with
  | PDict kv => Ok (PDict (dict_set k v kv))
  | _ => Raise TypeError
  end.

Fixpoint str_contains (needle hay : string) : bool :=
  String.prefix needle hay
  || match hay with
     | "" => false
     | String _ rest => str_contains needle rest
     end.

(** [a == x] for a string [a] *)
Definition str_eq_py (a : string) (x : pyval) : bool :=
  match x with
  | PStr s => String.eqb a s
  | _ => false
  end.

(** [a in x] for a string [a]: element of a list, substring of a string, key
    of a dict. *)
Definition py_contains (a : string) (x : pyval) : res bool :=
  match x with
  | PList l => Ok (existsb (str_eq_py a) l)
  | PStr s => Ok (str_contains a s)
  | PDict kv => Ok (existsb (fun e => String.eqb a e.1) kv)
  | PNone => Raise TypeError
  end.

(** [x.append(v)]; the result is the list after the call. *)
Definition py_append (x : pyval) (v : pyval) : res pyval :=
  match x with
  | PList l => Ok (PList (l ++ [v]))
  | _ => Raise AttributeError
  end.

(** [document.get('Statement')[0]] *)
Definition statement0 (document : pyval) : res pyval :=
  stmts ← py_get document "Statement";
  py_index0 stmts.

(** The document after its first statement, an object shared with the
    document, has been mutated into [st]. *)
Definition with_statement0 (document st : pyval) : pyval :=
  match document with
  | PDict kv =>
      match dict_get "Statement" kv with
      | Some (PList (_ :: rest)) => PDict (dict_set "Statement" (PList (st :: rest)) kv)
      | _ => document
      end
  | _ => document
  end.

(** ** The account behind the clients *)

(** A policy document on the wire is text: either a rendered template or the
    [json.dumps] of a value, which is represented by the value it encodes. *)
Inductive document_text :=
| Rendered (text : string)
| Dumped (doc : pyval).

Definition json_dumps (doc : pyval) : document_text := Dumped doc.

Record Role := {
  RoleArn : string;
  RolePath : string;
  AssumeRolePolicyDocument : pyval;
  RoleDescription : string;
  RoleTags : pyval;
  RoleAttachedPolicies : list string
}.

Record Policy := {
  PolicyArn : string;
  PolicyPath : string;
  PolicyDocument : document_text;
  PolicyDescription : string;
  PolicyTags : pyval
}.

Record User := {
  UserArn : string;
  UserPath : string;
  UserTags : pyval
}.

Record Group := {
  GroupArn : string;
  GroupPath : string;
  GroupUsers : list string;
  GroupAttachedPolicies : list string
}.

Record TemporaryCredentials := {
  AccessKeyId : string;
  SecretAccessKey : string;
  SessionToken : string
}.

Record AssumeRoleResponse := {
  Credentials : TemporaryCredentials
}.

Record CallerIdentity := {
  UserId : string;
  Account : string
}.

(** Every request the program sends, as it is sent. *)
Inductive call :=
| GetRole (RoleName : string)
| CreatePolicy (PolicyName Path : string) (doc : document_text)
| CreateUser (Path UserName : string)
| CreateGroup (Path GroupName : string)
| AddUserToGroup (GroupName UserName : string)
| CreateRole (Path RoleName : string) (doc : document_text)
| AttachRolePolicy (RoleName PolicyArn : string)
| AttachGroupPolicy (GroupName PolicyArn : string)
| UpdateAssumeRolePolicy (RoleName : string) (doc : document_text)
| GetCallerIdentity
| AssumeRole (RoleArn RoleSessionName : string)
| NewSubscriberTracker (credentials : TemporaryCredentials) (region_name : option string)
    (log_level : string).

Definition event : Type := call * option exn.

(** Roles, policies, users and groups are keyed by name: a name is unique in
    an account whatever its path.  [attachable] holds the ARNs that an attach
    call accepts (the account's own policies and the provider's managed ones).
    [policy_grammar] tells of a text whether the service takes it for a policy
    document: the grammar of policy documents is the service's, not the
    program's. *)
Record world := {
  account : string;
  user_id : string;
  roles : gmap string Role;
  policies : gmap string Policy;
  attachable : gset string;
  users : gmap string User;
  groups : gmap string Group;
  assumable : gset string;
  policy_grammar : string → bool;
  resource_files : gmap string string;
  AWS_REGION : option string;
  today : string;
  log : list event
}.

Definition set_roles (f : gmap string Role → gmap string Role) (w : world) : world :=
  {| account := account w; user_id := user_id w; roles := f (roles w);
     policies := policies w; attachable := attachable w; users := users w;
     groups := groups w; assumable := assumable w;
     policy_grammar := policy_grammar w; resource_files := resource_files w; AWS_REGION := AWS_REGION w;
     today := today w; log := log w |}.

Definition set_policies (f : gmap string Policy → gmap string Policy)
    (g : gset string → gset string) (w : world) : world :=
  {| account := account w; user_id := user_id w; roles := roles w;
     policies := f (policies w); attachable := g (attachable w); users := users w;
     groups := groups w; assumable := assumable w;
     policy_grammar := policy_grammar w; resource_files := resource_files w; AWS_REGION := AWS_REGION w;
     today := today w; log := log w |}.

Definition set_users (f : gmap string User → gmap string User) (w : world) : world :=
  {| account := account w; user_id := user_id w; roles := roles w;
     policies := policies w; attachable := attachable w; users := f (users w);
     groups := groups w; assumable := assumable w;
     policy_grammar := policy_grammar w; resource_files := resource_files w; AWS_REGION := AWS_REGION w;
     today := today w; log := log w |}.

Definition set_groups (f : gmap string Group → gmap string Group) (w : world) : world :=
  {| account := account w; user_id := user_id w; roles := roles w;
     policies := policies w; attachable := attachable w; users := users w;
     groups := f (groups w); assumable := assumable w;
     policy_grammar := policy_grammar w; resource_files := resource_files w; AWS_REGION := AWS_REGION w;
     today := today w; log := log w |}.

Definition record (c : call) (outcome : option exn) (w : world) : world :=
  {| account := account w; user_id := user_id w; roles := roles w;
     policies := policies w; attachable := attachable w; users := users w;
     groups := groups w; assumable := assumable w;
     policy_grammar := policy_grammar w; resource_files := resource_files w; AWS_REGION := AWS_REGION w;
     today := today w; log := log w ++ [(c, outcome)] |}.

(** ** Computations that call the clients *)

(** A computation over a state [S] ends with a value or an exception; the
    state it leaves behind is kept in both cases. *)
Definition M (S A : Type) : Type := S → res A * S.

#[export] Instance M_ret {S} : MRet (M S) := fun A a s => (Ok a, s).
#[export] Instance M_bind {S} : MBind (M S) := fun A B f m s =>
  match m s with
  | (Ok a, s') => f a s'
  | (Raise e, s') => (Raise e, s')
  end.

Definition raise {S A} (e : exn) : M S A := fun s => (Raise e, s).

Definition lift {S A} (r : res A) : M S A := fun s => (r, s).

(** [try: body except E: handler], for the exceptions [E] that [catches]
    accepts. *)
Definition try_except {S A} (body : M S A) (catches : exn → bool)
    (handler : M S A) : M S A :=
  fun s =>
    match body s with
    | (Raise e, s') => if catches e then handler s' else (Raise e, s')
    | finished => finished
    end.

Definition is_EntityAlreadyExists (e : exn) : bool :=
  match e with EntityAlreadyExistsException => true | _ => false end.

Definition is_NoSuchEntity (e : exn) : bool :=
  match e with NoSuchEntityException => true | _ => false end.

(** A request that succeeds with [a], leaving the account as [w'], or is
    refused with [e]. *)
Definition answer {A} (c : call) (a : A) (w' : world) : res A * world :=
  (Ok a, record c None w').
Definition refuse {A} (c : call) (e : exn) (w : world) : res A * world :=
  (Raise e, record c (Some e) w).

(** The ARN the service gives to what it creates in the account. *)
Definition service_arn (w : world) (type path name : string) : string :=
  "arn:aws:iam::" +:+ account w +:+ ":" +:+ type +:+ path +:+ name.

Definition add_once (x : string) (l : list string) : list string :=
  if bool_decide (x ∈ l) then l else l ++ [x].

(** *** The IAM client

    Each endpoint behaves as the service does for the requests this program
    sends: a create call on a name that is taken is refused with
    [EntityAlreadyExistsException], a call that names something missing with
    [NoSuchEntityException].  A document is checked before anything else is:
    the dump of a value is accepted, a rendered text when it is in the
    grammar of policy documents, and what is not accepted is refused as a
    [MalformedPolicyDocument].  A trust document has to be the dump of a
    value, since the account stores the value. *)

Definition well_formed (w : world) (doc : document_text) : bool :=
  match doc with
  | Dumped _ => true
  | Rendered text => policy_grammar w text
  end.

Definition get_role (RoleName : string) : M world Role := fun w =>
  let c := GetRole RoleName in
  match roles w !! RoleName with
  | Some r => answer c r w
  | None => refuse c NoSuchEntityException w
  end.

Definition create_policy (PolicyName Path : string) (doc : document_text)
    (Description : string) (Tags : pyval) : M world Policy := fun w =>
  let c := CreatePolicy PolicyName Path doc in
  if negb (well_formed w doc) then refuse c (ClientError "MalformedPolicyDocument") w
  else
    match policies w !! PolicyName with
    | Some _ => refuse c EntityAlreadyExistsException w
    | None =>
        let p := {| PolicyArn := service_arn w "policy" Path PolicyName;
                    PolicyPath := Path; PolicyDocument := doc;
                    PolicyDescription := Description; PolicyTags := Tags |} in
        answer c p (set_policies <[PolicyName := p]> (union {[PolicyArn p]}) w)
    end.

Definition create_user (Path UserName : string) (Tags : pyval) : M world User := fun w =>
  let c := CreateUser Path UserName in
  match users w !! UserName with
  | Some _ => refuse c EntityAlreadyExistsException w
  | None =>
      let u := {| UserArn := service_arn w "user" Path UserName;
                  UserPath := Path; UserTags := Tags |} in
      answer c u (set_users <[UserName := u]> w)
  end.

Definition create_group (Path GroupName : string) : M world Group := fun w =>
  let c := CreateGroup Path GroupName in
  match groups w !! GroupName with
  | Some _ => refuse c EntityAlreadyExistsException w
  | None =>
      let g := {| GroupArn := service_arn w "group" Path GroupName;
                  GroupPath := Path; GroupUsers := [];
                  GroupAttachedPolicies := [] |} in
      answer c g (set_groups <[GroupName := g]> w)
  end.

Definition add_user_to_group (GroupName UserName : string) : M world unit := fun w =>
  let c := AddUserToGroup GroupName UserName in
  match groups w !! GroupName, users w !! UserName with
  | Some g, Some _ =>
      let g' := {| GroupArn := GroupArn g; GroupPath := GroupPath g;
                   GroupUsers := add_once UserName (GroupUsers g);
                   GroupAttachedPolicies := GroupAttachedPolicies g |} in
      answer c () (set_groups <[GroupName := g']> w)
  | _, _ => refuse c NoSuchEntityException w
  end.

Definition create_role (Path RoleName : string) (doc : document_text)
    (Description : string) (Tags : pyval) : M world Role := fun w =>
  let c := CreateRole Path RoleName doc in
  match roles w !! RoleName with
  | Some _ => refuse c EntityAlreadyExistsException w
  | None =>
      match doc with
      | Dumped d =>
          let r := {| RoleArn := service_arn w "role" Path RoleName;
                      RolePath := Path; AssumeRolePolicyDocument := d;
                      RoleDescription := Description; RoleTags := Tags;
                      RoleAttachedPolicies := [] |} in
          answer c r (set_roles <[RoleName := r]> w)
      | Rendered _ => refuse c (ClientError "MalformedPolicyDocument") w
      end
  end.

Definition attach_role_policy (RoleName PolicyArn : string) : M world unit := fun w =>
  let c := AttachRolePolicy RoleName PolicyArn in
  match roles w !! RoleName with
  | Some r =>
      if bool_decide (PolicyArn ∈ attachable w) then
        let r' := {| RoleArn := RoleArn r; RolePath := RolePath r;
                     AssumeRolePolicyDocument := AssumeRolePolicyDocument r;
                     RoleDescription := RoleDescription r; RoleTags := RoleTags r;
                     RoleAttachedPolicies := add_once PolicyArn (RoleAttachedPolicies r) |} in
        answer c () (set_roles <[RoleName := r']> w)
      else refuse c NoSuchEntityException w
  | None => refuse c NoSuchEntityException w
  end.

Definition attach_group_policy (GroupName PolicyArn : string) : M world unit := fun w =>
  let c := AttachGroupPolicy GroupName PolicyArn in
  match groups w !! GroupName with
  | Some g =>
      if bool_decide (PolicyArn ∈ attachable w) then
        let g' := {| GroupArn := GroupArn g; GroupPath := GroupPath g;
                     GroupUsers := GroupUsers g;
                     GroupAttachedPolicies := add_once PolicyArn (GroupAttachedPolicies g) |} in
        answer c () (set_groups <[GroupName := g']> w)
      else refuse c NoSuchEntityException w
  | None => refuse c NoSuchEntityException w
  end.

Definition update_assume_role_policy (RoleName : string) (doc : document_text)
  : M world unit := fun w =>
  let c := UpdateAssumeRolePolicy RoleName doc in
  match roles w !! RoleName with
  | Some r =>
      match doc with
      | Dumped d =>
          let r' := {| RoleArn := RoleArn r; RolePath := RolePath r;
                       AssumeRolePolicyDocument := d;
                       RoleDescription := RoleDescription r; RoleTags := RoleTags r;
                       RoleAttachedPolicies := RoleAttachedPolicies r |} in
          answer c () (set_roles <[RoleName := r']> w)
      | Rendered _ => refuse c (ClientError "MalformedPolicyDocument") w
      end
  | None => refuse c NoSuchEntityException w
  end.

(** *** The STS client *)

Definition get_caller_identity : M world CallerIdentity := fun w =>
  answer GetCallerIdentity {| UserId := user_id w; Account := account w |} w.

(** The session holds temporary credentials, here named after the role and
    the session they were issued for. *)
Definition assume_role (RoleArn RoleSessionName : string) : M world AssumeRoleResponse :=
  fun w =>
    let c := AssumeRole RoleArn RoleSessionName in
    if bool_decide (RoleArn ∈ assumable w) then
      answer c {| Credentials := {| AccessKeyId := RoleArn;
                                    SecretAccessKey := RoleSessionName;
                                    SessionToken := RoleSessionName |} |} w
    else refuse c (ClientError "AccessDenied") w.

(** *** The process environment *)

(** [Logger.setLevel] takes the name of a level that [logging] defines and
    raises [ValueError] for any other string. *)
Definition level_names : list string :=
  ["CRITICAL"; "FATAL"; "ERROR"; "WARN"; "WARNING"; "INFO"; "DEBUG"; "NOTSET"].

Definition logger_setLevel (level : string) : M world unit :=
  if bool_decide (level ∈ level_names) then mret () else raise ValueError.

Definition getenv_AWS_REGION : M world (option string) := fun w => (Ok (AWS_REGION w), w).

Definition now_Ymd : M world string := fun w => (Ok (today w), w).

Definition read_resource (template_file : string) : M world string := fun w =>
  match resource_files w !! template_file with
  | Some text => (Ok text, w)
  | None => (Raise (FileNotFoundError template_file), w)
  end.

(** ** What the program imports

    [constants.py] and two helpers it uses are not among the sources read
    here; the program is embedded over any values of them. *)
Class Constants := {
  DATA_MESH_IAM_PATH : string;
  DEFAULT_TAGS : pyval;
  CONSUMER_POLICY_NAME : string;
  DATA_MESH_CONSUMER_ROLENAME : string;
  DATA_MESH_ADMIN_CONSUMER_ROLENAME : string;
  (** [pystache.Renderer().render(template, config)] *)
  pystache_render : string → option pyval → string;
  (** [utils.get_datamesh_consumer_role_arn(account_id=...)] *)
  get_datamesh_consumer_role_arn : string → string
}.

(** Modelled from the spec: the subscription tracker, whose class
    [SubscriberTracker] is imported from a module that is not among the
    sources, is "constructed with temporary credentials, region, and log
    level"; its construction is recorded as one more request. *)
Record SubscriberTracker := {
  tracker_credentials : TemporaryCredentials;
  tracker_region_name : option string;
  tracker_log_level : string
}.

Definition SubscriberTracker_new (credentials : TemporaryCredentials)
    (region_name : option string) (log_level : string) : M world SubscriberTracker :=
  fun w =>
    answer (NewSubscriberTracker credentials region_name log_level)
      {| tracker_credentials := credentials; tracker_region_name := region_name;
         tracker_log_level := log_level |} w.

(** ** lib/utils.py *)

Section utils.
Context {K : Constants}.

Definition validate_correct_account (role_must_exist : string) : M world bool :=
  try_except
    (_ ← get_role role_must_exist;
     mret true)
    is_NoSuchEntity
    (mret false).

Definition generate_policy (template_file : string) (config : option pyval)
  : M world string :=
  template ← read_resource template_file;
  let rendered := pystache_render template config in
  mret rendered.

(** [statement['Principal'] = principal], seen from a holder of
    [statement]. *)
Definition with_principal (statement principal : pyval) : pyval :=
  match statement with
  | PDict kv => PDict (dict_set "Principal" principal kv)
  | _ => statement
  end.

Definition add_aws_trust_to_role (account_id role_name : string) : M world unit :=
  _ ← validate_correct_account role_name;
  response ← get_role role_name;
  let policy_doc := AssumeRolePolicyDocument response in
  statement ← lift (statement0 policy_doc);
  principal ← lift (py_get statement "Principal");
  trusted_entities ← lift (py_get principal "AWS");
  present ← lift (py_contains account_id trusted_entities);
  policy_doc ←
    (if negb present then
       (* the list is appended to in place, inside the document *)
       trusted_entities ← lift (py_append trusted_entities (PStr account_id));
       principal ← lift (py_setitem principal "AWS" trusted_entities);
       mret (with_statement0 policy_doc (with_principal statement principal))
     else mret policy_doc);
  update_assume_role_policy role_name (json_dumps policy_doc).

(** [document.get('Statement')[0][k] = v] *)
Definition set_in_statement0 (document : pyval) (k : string) (v : pyval)
  : res pyval :=
  statement ← statement0 document;
  statement ← py_setitem statement k v;
  mret (with_statement0 document statement).

(** [document.get('Statement')[0]['Principal'][k] = v] *)
Definition set_in_principal (document : pyval) (k : string) (v : pyval)
  : res pyval :=
  statement ← statement0 document;
  principal ← py_getitem statement "Principal";
  principal ← py_setitem principal k v;
  mret (with_statement0 document (with_principal statement principal)).

(** [for k, v in items: document.get('Statement')[0]['Principal'][k] = v] *)
Fixpoint merge_principals (items : list (string * pyval)) (document : pyval)
  : res pyval :=
  match items with
  | [] => mret document
  | (k, v) :: rest =>
      document ← set_in_principal document k v;
      merge_principals rest document
  end.

Definition create_assume_role_doc (aws_principals : option (list string))
    (resource : option string)
    (additional_principals : option (list (string * pyval))) : res pyval :=
  let document :=
    PDict [("Version", PStr "2012-10-17");
           ("Statement",
            PList [PDict [("Effect", PStr "Allow");
                          ("Action", PStr "sts:AssumeRole")]])] in
  document ←
    match aws_principals with
    | Some principals =>
        set_in_statement0 document "Principal"
          (PDict [("AWS", PList (PStr <$> principals))])
    | None => mret document
    end;
  document ←
    match additional_principals with
    | Some items => merge_principals items document
    | None => mret document
    end;
  document ←
    match resource with
    | Some r => set_in_statement0 document "Resource" (PStr r)
    | None => mret document
    end;
  mret document.

Definition create_assume_role_policy (account_id policy_name role_arn : string)
  : M world string :=
  try_except
    (document ← lift (create_assume_role_doc None (Some role_arn) None);
     response ←
       create_policy policy_name DATA_MESH_IAM_PATH (json_dumps document)
         ("Policy allowing the grantee the ability to assume Role " +:+ role_arn)
         DEFAULT_TAGS;
     mret (PolicyArn response))
    is_EntityAlreadyExists
    (mret ("arn:aws:iam::" +:+ account_id +:+ ":policy" +:+ DATA_MESH_IAM_PATH
           +:+ policy_name)).

(** [time.sleep(.5)] after the user is created is not part of the model. *)
Definition configure_iam (policy_name policy_desc policy_template role_name
    role_desc account_id : string) (config : option pyval)
    (additional_assuming_principals : option (list (string * pyval)))
  : M world string :=
  policy_arn ←
    try_except
      (policy_doc ← generate_policy policy_template config;
       response ←
         create_policy policy_name DATA_MESH_IAM_PATH (Rendered policy_doc)
           policy_desc DEFAULT_TAGS;
       mret (PolicyArn response))
      is_EntityAlreadyExists
      (mret ("arn:aws:iam::" +:+ account_id +:+ ":policy" +:+ DATA_MESH_IAM_PATH
             +:+ policy_name));
  _ ←
    try_except
      (_ ← create_user DATA_MESH_IAM_PATH role_name DEFAULT_TAGS;
       mret ())
      is_EntityAlreadyExists
      (mret ());
  let user_arn :=
    "arn:aws:iam::" +:+ account_id +:+ ":user" +:+ DATA_MESH_IAM_PATH +:+ role_name in
  _ ←
    try_except
      (_ ← create_group DATA_MESH_IAM_PATH (role_name +:+ "Group");
       mret ())
      is_EntityAlreadyExists
      (mret ());
  let group_arn :=
    "arn:aws:iam::" +:+ account_id +:+ ":group" +:+ DATA_MESH_IAM_PATH +:+ role_name
    +:+ "Group" in
  _ ←
    try_except
      (add_user_to_group (role_name +:+ "Group") role_name)
      is_EntityAlreadyExists
      (mret ());
  role_arn ←
    try_except
      (let aws_principals := [user_arn; "arn:aws:iam::" +:+ account_id +:+ ":root"] in
       document ←
         lift (create_assume_role_doc (Some aws_principals) None
                 additional_assuming_principals);
       role_response ←
         create_role DATA_MESH_IAM_PATH role_name (json_dumps document) role_desc
           DEFAULT_TAGS;
       mret (RoleArn role_response))
      is_EntityAlreadyExists
      (response ← get_role role_name;
       mret (RoleArn response));
  _ ← attach_role_policy role_name policy_arn;
  _ ← create_assume_role_policy account_id ("Assume" +:+ role_name) role_arn;
  _ ← attach_group_policy (role_name +:+ "Group") policy_arn;
  mret role_arn.

End utils.

(** *** flatten_default_tags *)

(** [for t in x]: the elements of a list, the characters of a string, the
    keys of a dict. *)
Fixpoint chars (s : string) : list pyval :=
  match s with
  | "" => []
  | String c rest => PStr (String c "") :: chars rest
  end.

Definition py_iter (x : pyval) : res (list pyval) :=
  match x with
  | PList l => Ok l
  | PStr s => Ok (chars s)
  | PDict kv => Ok ((fun e => PStr e.1) <$> kv)
  | PNone => Raise TypeError
  end.

(** Keys of a dict are hashable: [None] and strings are, lists and dicts
    are not. *)
Definition key_eqb (a b : pyval) : bool :=
  match a, b with
  | PNone, PNone => true
  | PStr s, PStr t => String.eqb s t
  | _, _ => false
  end.

Fixpoint item_get (k : pyval) (out : list (pyval * pyval)) : option pyval :=
  match out with
  | [] => None
  | (k', v) :: rest => if key_eqb k' k then Some v else item_get k rest
  end.

Fixpoint item_set (k v : pyval) (out : list (pyval * pyval)) : list (pyval * pyval) :=
  match out with
  | [] => [(k, v)]
  | (k', v') :: rest =>
      if key_eqb k' k then (k', v) :: rest else (k', v') :: item_set k v rest
  end.

(** [output[k] = v] on a dict whose keys may be [None]. *)
Definition py_setitem_any (out : list (pyval * pyval)) (k v : pyval)
  : res (list (pyval * pyval)) :=
  match k with
  | PNone | PStr _ => Ok (item_set k v out)
  | PList _ | PDict _ => Raise TypeError
  end.

Section flatten.
Context {K : Constants}.

Fixpoint flatten_tags (tags : list pyval) (output : list (pyval * pyval))
  : res (list (pyval * pyval)) :=
  match tags with
  | [] => mret output
  | t :: rest =>
      k ← py_get t "Key";
      v ← py_get t "Value";
      output ← py_setitem_any output k v;
      flatten_tags rest output
  end.

Definition flatten_default_tags : res (list (pyval * pyval)) :=
  let output := [] in
  tags ← py_iter DEFAULT_TAGS;
  flatten_tags tags output.

End flatten.

(** ** DataMeshConsumer.py *)

Record DataMeshConsumer := {
  _data_mesh_account_id : string;
  _data_consumer_role_arn : string;
  _data_consumer_account_id : option string;
  _data_mesh_sts_session : AssumeRoleResponse;
  _current_region : option string;
  _log_level : string;
  _subscription_tracker : SubscriberTracker
}.

(** A method runs on the object and the account together. *)
Definition method (A : Type) : Type := M (DataMeshConsumer * world) A.

Definition call_out {A} (m : M world A) : method A := fun '(self, w) =>
  match m w with
  | (r, w') => (r, (self, w'))
  end.

Definition self_ : method DataMeshConsumer := fun '(self, w) => (Ok self, (self, w)).

Definition set_data_consumer_account_id (v : string) : method unit := fun '(self, w) =>
  (Ok (),
   ({| _data_mesh_account_id := _data_mesh_account_id self;
       _data_consumer_role_arn := _data_consumer_role_arn self;
       _data_consumer_account_id := Some v;
       _data_mesh_sts_session := _data_mesh_sts_session self;
       _current_region := _current_region self;
       _log_level := _log_level self;
       _subscription_tracker := _subscription_tracker self |}, w)).

Section DataMeshConsumer.
Context {K : Constants}.

(** Of the logger calls, [setLevel] can raise and is part of the model; the
    calls that write a message are not. *)
Definition __init__ (data_mesh_account_id log_level : string)
  : M world DataMeshConsumer :=
  current_region ← getenv_AWS_REGION;
  _ ← logger_setLevel log_level;
  current_account ← get_caller_identity;
  date ← now_Ymd;
  let session_name :=
    UserId current_account +:+ "-" +:+ Account current_account +:+ "-" +:+ date in
  let data_consumer_role_arn := get_datamesh_consumer_role_arn data_mesh_account_id in
  data_mesh_sts_session ← assume_role data_consumer_role_arn session_name;
  subscription_tracker ←
    SubscriberTracker_new (Credentials data_mesh_sts_session) current_region log_level;
  match current_region with
  | None =>
      raise (PyException
        "Cannot create a Data Mesh Consumer without AWS_REGION environment variable")
  | Some _ =>
      _ ← logger_setLevel log_level;
      mret {| _data_mesh_account_id := data_mesh_account_id;
              _data_consumer_role_arn := data_consumer_role_arn;
              _data_consumer_account_id := None;
              _data_mesh_sts_session := data_mesh_sts_session;
              _current_region := current_region;
              _log_level := log_level;
              _subscription_tracker := subscription_tracker |}
  end.

Definition _check_acct : method unit :=
  ok ← call_out (validate_correct_account DATA_MESH_ADMIN_CONSUMER_ROLENAME);
  if negb ok
  then raise (PyException "Function should be run in the Data Consumer Account")
  else mret ().

Definition initialize_consumer_account : method string :=
  _ ← _check_acct;
  identity ← call_out get_caller_identity;
  _ ← set_data_consumer_account_id (Account identity);
  let data_consumer_account_id := Account identity in
  consumer_iam ←
    call_out
      (configure_iam CONSUMER_POLICY_NAME
         "IAM Policy enabling Accounts to Assume the DataMeshAdminConsumer Role"
         "consumer_policy.pystache"
         DATA_MESH_CONSUMER_ROLENAME
         "Role to be used to update S3 Bucket Policies for access by the Data Mesh Account"
         data_consumer_account_id None None);
  let policy_name := "AssumeDataMeshAdminConsumer" in
  self ← self_;
  policy_arn ←
    call_out
      (create_assume_role_policy data_consumer_account_id policy_name
         (_data_consumer_role_arn self));
  let group_name := DATA_MESH_CONSUMER_ROLENAME +:+ "Group" in
  _ ← call_out (attach_group_policy group_name policy_arn);
  mret consumer_iam.

End DataMeshConsumer.

(** ** configure_iam, step by step *)

Section steps.
Context {K : Constants}.

Definition policy_step (policy_name policy_desc policy_template account_id : string)
    (config : option pyval) : M world string :=
  try_except
    (policy_doc ← generate_policy policy_template config;
     response ←
       create_policy policy_name DATA_MESH_IAM_PATH (Rendered policy_doc)
         policy_desc DEFAULT_TAGS;
     mret (PolicyArn response))
    is_EntityAlreadyExists
    (mret ("arn:aws:iam::" +:+ account_id +:+ ":policy" +:+ DATA_MESH_IAM_PATH
           +:+ policy_name)).

Definition user_step (role_name : string) : M world unit :=
  try_except
    (_ ← create_user DATA_MESH_IAM_PATH role_name DEFAULT_TAGS;
     mret ())
    is_EntityAlreadyExists
    (mret ()).

Definition group_step (role_name : string) : M world unit :=
  try_except
    (_ ← create_group DATA_MESH_IAM_PATH (role_name +:+ "Group");
     mret ())
    is_EntityAlreadyExists
    (mret ()).

Definition membership_step (role_name : string) : M world unit :=
  try_except
    (add_user_to_group (role_name +:+ "Group") role_name)
    is_EntityAlreadyExists
    (mret ()).

Definition role_step (role_name role_desc account_id : string)
    (additional_assuming_principals : option (list (string * pyval)))
  : M world string :=
  try_except
    (let aws_principals :=
       ["arn:aws:iam::" +:+ account_id +:+ ":user" +:+ DATA_MESH_IAM_PATH
        +:+ role_name;
        "arn:aws:iam::" +:+ account_id +:+ ":root"] in
     document ←
       lift (create_assume_role_doc (Some aws_principals) None
               additional_assuming_principals);
     role_response ←
       create_role DATA_MESH_IAM_PATH role_name (json_dumps document) role_desc
         DEFAULT_TAGS;
     mret (RoleArn role_response))
    is_EntityAlreadyExists
    (response ← get_role role_name;
     mret (RoleArn response)).

Definition attach_steps (role_name account_id policy_arn role_arn : string)
  : M world string :=
  _ ← attach_role_policy role_name policy_arn;
  _ ← create_assume_role_policy account_id ("Assume" +:+ role_name) role_arn;
  _ ← attach_group_policy (role_name +:+ "Group") policy_arn;
  mret role_arn.

End steps.

(** ** Reading documents and logs *)

(** [policy_doc.get('Statement')[0].get('Principal').get('AWS')], the read
    that [add_aws_trust_to_role] starts from. *)
Definition trusted_principals (policy_doc : pyval) : res pyval :=
  statement ← statement0 policy_doc;
  principal ← py_get statement "Principal";
  py_get principal "AWS".

(** The events a run added to the log of the world it started from. *)
Definition new_events (before after : world) : list event :=
  drop (length (log before)) (log after).


(** The requests that change the IAM state of the account. *)
Definition is_mutation (c : call) : bool :=
  match c with
  | CreatePolicy _ _ _ | CreateUser _ _ | CreateGroup _ _ | AddUserToGroup _ _
  | CreateRole _ _ _ | AttachRolePolicy _ _ | AttachGroupPolicy _ _
  | UpdateAssumeRolePolicy _ _ => true
  | GetRole _ | GetCallerIdentity | AssumeRole _ _ | NewSubscriberTracker _ _ _ => false
  end.

(** The requests that go over the network when an object is constructed. *)
Definition is_network_call (c : call) : bool :=
  match c with
  | GetCallerIdentity | AssumeRole _ _ | NewSubscriberTracker _ _ _ => true
  | _ => false
  end.


(** ** Relations between the account before and after a computation *)

Definition preserves (R : relation world) {A} (m : M world A) : Prop :=
  ∀ w, R w (m w).2.

(** Only events of one kind are added to the log. *)
Definition only_events (P : event → Prop) (w w' : world) : Prop :=
  ∃ evs, log w' = log w ++ evs ∧ Forall P evs.

(** The events of the steps of [configure_iam] before the role step, and of
    those after it when they work with [policy_arn]. *)
Definition before_role_event (ev : event) : Prop :=
  match ev.1 with
  | CreatePolicy _ _ _ | CreateUser _ _ | CreateGroup _ _ | AddUserToGroup _ _ => True
  | _ => False
  end.

Definition after_role_event (policy_arn : string) (ev : event) : Prop :=
  match ev.1 with
  | AttachRolePolicy _ arn | AttachGroupPolicy _ arn => arn = policy_arn
  | CreatePolicy _ _ _ => True
  | _ => False
  end.

(** Roles keep their ARN and their trust document. *)
Definition role_identity (r : Role) : string * pyval :=
  (RoleArn r, AssumeRolePolicyDocument r).

Definition roles_kept (w w' : world) : Prop :=
  ∀ n, role_identity <$> roles w' !! n = role_identity <$> roles w !! n.

(** What exists keeps existing, a role under the same ARN. *)
Definition extends (w w' : world) : Prop :=
  account w' = account w
  ∧ resource_files w' = resource_files w
  ∧ dom (policies w) ⊆ dom (policies w')
  ∧ attachable w ⊆ attachable w'
  ∧ dom (users w) ⊆ dom (users w')
  ∧ dom (groups w) ⊆ dom (groups w')
  ∧ (∀ n a, RoleArn <$> roles w !! n = Some a → RoleArn <$> roles w' !! n = Some a)
  ∧ policy_grammar w' = policy_grammar w.

(** The additional principals, when given, have no [AWS] key. *)
Definition no_AWS_entry (additional : option (list (string * pyval))) : Prop :=
  ∀ items, additional = Some items → dict_get "AWS" items = None.

Section provisioned.
Context {K : Constants}.

(** The account holds everything [configure_iam] provisions, the role under
    the ARN [arn], and the template renders to a policy document. *)
Definition provisioned (policy_name policy_template : string) (config : option pyval)
    (role_name account_id arn : string) (w : world) : Prop :=
  (∃ template,
     resource_files w !! policy_template = Some template
     ∧ policy_grammar w (pystache_render template config) = true)
  ∧ policy_name ∈ dom (policies w)
  ∧ ("arn:aws:iam::" +:+ account_id +:+ ":policy" +:+ DATA_MESH_IAM_PATH
     +:+ policy_name) ∈ attachable w
  ∧ role_name ∈ dom (users w)
  ∧ (role_name +:+ "Group") ∈ dom (groups w)
  ∧ RoleArn <$> roles w !! role_name = Some arn
  ∧ ("Assume" +:+ role_name) ∈ dom (policies w).

End provisioned.

(** *** Further relations *)

(** Roles that exist keep their ARN and their trust document; new roles may
    appear. *)
Definition roles_grow (w w' : world) : Prop :=
  ∀ n r, roles w !! n = Some r → role_identity <$> roles w' !! n = Some (role_identity r).

(** One component of the account is left as it is. *)
Definition kept {X} (f : world → X) (w w' : world) : Prop := f w' = f w.

Definition is_update (c : call) : bool :=
  match c with
  | UpdateAssumeRolePolicy _ _ => true
  | _ => false
  end.

(** Only the trust document of the role [role_name] may differ. *)
Definition trust_only (role_name : string) (w w' : world) : Prop :=
  policies w' = policies w ∧ attachable w' = attachable w
  ∧ users w' = users w ∧ groups w' = groups w
  ∧ (∀ n, n ≠ role_name → roles w' !! n = roles w !! n)
  ∧ RoleArn <$> roles w' !! role_name = RoleArn <$> roles w !! role_name
  ∧ RoleAttachedPolicies <$> roles w' !! role_name
    = RoleAttachedPolicies <$> roles w !! role_name.

(** ** Closed forms

    What the loops of [create_assume_role_doc] and [flatten_default_tags]
    compute, written without the loop. *)

(** The [Principal] dict once the additional principals are assigned, one
    key after the other, to the dict that holds the AWS principals. *)
Definition merged_principals (principals : list string)
    (additional : option (list (string * pyval))) : list (string * pyval) :=
  fold_left (fun principal '(k, v) => dict_set k v principal)
    (default [] additional) [("AWS", PList (PStr <$> principals))].

(** A tag as [constants.py] writes it. *)
Definition tag (e : string * pyval) : pyval :=
  PDict [("Key", PStr e.1); ("Value", e.2)].

Definition tag_item (e : string * pyval) : pyval * pyval := (PStr e.1, e.2).

(** ** Example values *)

Definition example_constants : Constants := {|
  DATA_MESH_IAM_PATH := "/AwsDataMesh/";
  DEFAULT_TAGS := PList [PDict [("Key", PStr "Solution"); ("Value", PStr "DataMeshUtils")]];
  CONSUMER_POLICY_NAME := "DataMeshConsumerPolicy";
  DATA_MESH_CONSUMER_ROLENAME := "DataMeshConsumer";
  DATA_MESH_ADMIN_CONSUMER_ROLENAME := "DataMeshAdminConsumer";
  pystache_render := fun template _ => template;
  get_datamesh_consumer_role_arn := fun account_id =>
    "arn:aws:iam::" +:+ account_id +:+ ":role/AwsDataMesh/DataMeshAdminConsumer"
|}.

(** The text of [consumer_policy.pystache]: a policy document without
    template tags, which renders to itself. *)
Definition quoted (s : string) : string :=
  let quote := String (Ascii.Ascii false true false false false true false false) "" in
  quote +:+ s +:+ quote.

Definition consumer_policy_text : string :=
  "{" +:+ quoted "Version" +:+ ": " +:+ quoted "2012-10-17" +:+ ", "
  +:+ quoted "Statement" +:+ ": [{" +:+ quoted "Effect" +:+ ": " +:+ quoted "Allow"
  +:+ ", " +:+ quoted "Action" +:+ ": " +:+ quoted "sts:AssumeRole" +:+ ", "
  +:+ quoted "Resource" +:+ ": " +:+ quoted "*" +:+ "}]}".

(** Account 111111111111 before anything was provisioned, in a process
    that has no AWS_REGION. *)
Definition fresh_account : world := {|
  account := "111111111111";
  user_id := "AIDAEXAMPLE";
  roles := ∅;
  policies := ∅;
  attachable := ∅;
  users := ∅;
  groups := ∅;
  assumable := {["arn:aws:iam::999999999999:role/AwsDataMesh/DataMeshAdminConsumer"]};
  policy_grammar := String.eqb consumer_policy_text;
  resource_files := {["consumer_policy.pystache" := consumer_policy_text]};
  AWS_REGION := None;
  today := "2021-10-01";
  log := []
|}.

Definition example_credentials : TemporaryCredentials := {|
  AccessKeyId := "arn:aws:iam::999999999999:role/AwsDataMesh/DataMeshAdminConsumer";
  SecretAccessKey := "AIDAEXAMPLE-111111111111-2021-10-01";
  SessionToken := "AIDAEXAMPLE-111111111111-2021-10-01"
|}.

Definition example_consumer : DataMeshConsumer := {|
  _data_mesh_account_id := "999999999999";
  _data_consumer_role_arn :=
    "arn:aws:iam::999999999999:role/AwsDataMesh/DataMeshAdminConsumer";
  _data_consumer_account_id := None;
  _data_mesh_sts_session := {| Credentials := example_credentials |};
  _current_region := Some "eu-west-1";
  _log_level := "INFO";
  _subscription_tracker :=
    {| tracker_credentials := example_credentials;
       tracker_region_name := Some "eu-west-1";
       tracker_log_level := "INFO" |}
|}.

(** The same account once it holds a role that trusts one account. *)
Definition manager_role : Role := {|
  RoleArn := "arn:aws:iam::111111111111:role/AwsDataMesh/DataMeshManager";
  RolePath := "/AwsDataMesh/";
  AssumeRolePolicyDocument :=
    PDict [("Version", PStr "2012-10-17");
           ("Statement",
            PList [PDict [("Effect", PStr "Allow");
                          ("Action", PStr "sts:AssumeRole");
                          ("Principal",
                           PDict [("AWS", PList [PStr "333333333333"])])]])];
  RoleDescription := "";
  RoleTags := PList [];
  RoleAttachedPolicies := []
|}.

Definition account_with_manager : world :=
  set_roles <["DataMeshManager" := manager_role]> fresh_account.

(** The first run of the provisioning routine in that account. *)
Definition first_run : res string * world :=
  configure_iam (K := example_constants) "DataMeshConsumerPolicy"
    "IAM Policy enabling Accounts to Assume the DataMeshAdminConsumer Role"
    "consumer_policy.pystache" "DataMeshConsumer"
    "Role to be used to update S3 Bucket Policies for access by the Data Mesh Account"
    "111111111111" None None fresh_account.

(** Construction of the controller in that account. *)
Definition construction_without_region : res DataMeshConsumer * world :=
  __init__ (K := example_constants) "999999999999" "INFO" fresh_account.

(** Two runs in succession that are given the id of another account. *)
Definition first_run_foreign : res string * world :=
  configure_iam (K := example_constants) "DataMeshConsumerPolicy"
    "IAM Policy enabling Accounts to Assume the DataMeshAdminConsumer Role"
    "consumer_policy.pystache" "DataMeshConsumer"
    "Role to be used to update S3 Bucket Policies for access by the Data Mesh Account"
    "222222222222" None None fresh_account.

Definition second_run_foreign : res string * world :=
  configure_iam (K := example_constants) "DataMeshConsumerPolicy"
    "IAM Policy enabling Accounts to Assume the DataMeshAdminConsumer Role"
    "consumer_policy.pystache" "DataMeshConsumer"
    "Role to be used to update S3 Bucket Policies for access by the Data Mesh Account"
    "222222222222" None None first_run_foreign.2.

(** A first run that is given an [AWS] entry among the additional
    principals. *)
Definition run_with_additional_AWS : res string * world :=
  configure_iam (K := example_constants) "DataMeshConsumerPolicy"
    "IAM Policy enabling Accounts to Assume the DataMeshAdminConsumer Role"
    "consumer_policy.pystache" "DataMeshConsumer"
    "Role to be used to update S3 Bucket Policies for access by the Data Mesh Account"
    "111111111111" None (Some [("AWS", PStr "*")]) fresh_account.

(** The same account when a role of the consumer's name exists already,
    outside the path of the data mesh. *)
Definition consumer_role_at_root : Role := {|
  RoleArn := "arn:aws:iam::111111111111:role/DataMeshConsumer";
  RolePath := "/";
  AssumeRolePolicyDocument :=
    PDict [("Version", PStr "2012-10-17");
           ("Statement",
            PList [PDict [("Effect", PStr "Allow");
                          ("Action", PStr "sts:AssumeRole");
                          ("Principal",
                           PDict [("AWS", PList [PStr "arn:aws:iam::111111111111:root"])])]])];
  RoleDescription := "";
  RoleTags := PList [];
  RoleAttachedPolicies := []
|}.

Definition account_with_consumer_role : world :=
  set_roles <["DataMeshConsumer" := consumer_role_at_root]> fresh_account.

Definition run_with_role_taken : res string * world :=
  configure_iam (K := example_constants) "DataMeshConsumerPolicy"
    "IAM Policy enabling Accounts to Assume the DataMeshAdminConsumer Role"
    "consumer_policy.pystache" "DataMeshConsumer"
    "Role to be used to update S3 Bucket Policies for access by the Data Mesh Account"
    "111111111111" None None account_with_consumer_role.


(** *** Further accounts *)

(** The same account with no file among its resources. *)
Definition account_without_templates : world :=
  {| account := "111111111111"; user_id := "AIDAEXAMPLE";
     roles := ∅; policies := ∅; attachable := ∅; users := ∅; groups := ∅;
     assumable := ∅; policy_grammar := String.eqb consumer_policy_text;
     resource_files := ∅; AWS_REGION := None;
     today := "2021-10-01"; log := [] |}.

(** An account whose role names its one trusted principal as a string. *)
Definition single_principal_role : Role := {|
  RoleArn := "arn:aws:iam::111111111111:role/AwsDataMesh/DataMeshManager";
  RolePath := "/AwsDataMesh/";
  AssumeRolePolicyDocument :=
    PDict [("Version", PStr "2012-10-17");
           ("Statement",
            PList [PDict [("Effect", PStr "Allow");
                          ("Action", PStr "sts:AssumeRole");
                          ("Principal",
                           PDict [("AWS", PStr "arn:aws:iam::333333333333:root")])]])];
  RoleDescription := "";
  RoleTags := PList [];
  RoleAttachedPolicies := []
|}.

Definition account_with_single_principal : world :=
  set_roles <["DataMeshManager" := single_principal_role]> fresh_account.

(** The same account with a template that is no policy document. *)
Definition account_with_empty_template : world :=
  {| account := "111111111111"; user_id := "AIDAEXAMPLE";
     roles := ∅; policies := ∅; attachable := ∅; users := ∅; groups := ∅;
     assumable := ∅; policy_grammar := String.eqb consumer_policy_text;
     resource_files := {["consumer_policy.pystache" := "{}"]};
     AWS_REGION := None; today := "2021-10-01"; log := [] |}.

(** The account of the examples in a process that has a region. *)
Definition account_in_region : world :=
  {| account := "111111111111"; user_id := "AIDAEXAMPLE";
     roles := ∅; policies := ∅; attachable := ∅; users := ∅; groups := ∅;
     assumable :=
       {["arn:aws:iam::999999999999:role/AwsDataMesh/DataMeshAdminConsumer"]};
     policy_grammar := String.eqb consumer_policy_text;
     resource_files := {["consumer_policy.pystache" := consumer_policy_text]};
     AWS_REGION := Some "eu-west-1"; today := "2021-10-01"; log := [] |}.

(** The consumer account: the account of the examples once it holds the
    administrative role. *)
Definition admin_consumer_role : Role := {|
  RoleArn := "arn:aws:iam::111111111111:role/AwsDataMesh/DataMeshAdminConsumer";
  RolePath := "/AwsDataMesh/";
  AssumeRolePolicyDocument := PDict [];
  RoleDescription := "";
  RoleTags := PList [];
  RoleAttachedPolicies := []
|}.

Definition consumer_account : world :=
  set_roles <["DataMeshAdminConsumer" := admin_consumer_role]> fresh_account.

Definition first_initialize : res string * (DataMeshConsumer * world) :=
  initialize_consumer_account (K := example_constants)
    (example_consumer, consumer_account).

(** Constants whose second tag is not a dict. *)
Definition constants_with_bad_tag : Constants := {|
  DATA_MESH_IAM_PATH := "/AwsDataMesh/";
  DEFAULT_TAGS := PList [tag ("Solution", PStr "DataMeshUtils"); PStr "Owner"];
  CONSUMER_POLICY_NAME := "DataMeshConsumerPolicy";
  DATA_MESH_CONSUMER_ROLENAME := "DataMeshConsumer";
  DATA_MESH_ADMIN_CONSUMER_ROLENAME := "DataMeshAdminConsumer";
  pystache_render := fun template _ => template;
  get_datamesh_consumer_role_arn := fun account_id => account_id
|}.

(** ** Proof tools *)

Ltac unfold_monad :=
  unfold mbind, mret, M_bind, M_ret, res_bind, res_ret, lift, raise, try_except,
    call_out, answer, refuse in *.

Lemma new_events_app (w w' : world) (evs : list event) :
  log w' = log w ++ evs → new_events w w' = evs.
Proof.
  intros Hlog. unfold new_events. rewrite Hlog.
  by rewrite drop_app_length.
Qed.

Lemma new_events_record (w : world) (c : call) (o : option exn) :
  new_events w (record c o w) = [(c, o)].
Proof. by apply new_events_app. Qed.

(** ** create_assume_role_doc *)

Lemma dict_get_set_eq (k : string) (v : pyval) (kv : list (string * pyval)) :
  dict_get k (dict_set k v kv) = Some v.
Proof.
  induction kv as [|[k' v'] kv IH]; simpl.
  - by rewrite String.eqb_refl.
  - destruct (String.eqb k' k) eqn:Hk; simpl.
    + by rewrite String.eqb_refl.
    + by rewrite Hk.
Qed.

Lemma dict_get_set_ne (k k' : string) (v : pyval) (kv : list (string * pyval)) :
  k ≠ k' → dict_get k' (dict_set k v kv) = dict_get k' kv.
Proof.
  intros Hne. induction kv as [|[k0 v0] kv IH]; simpl.
  - destruct (String.eqb_spec k k'); [done|done].
  - destruct (String.eqb_spec k0 k) as [->|Hk0]; simpl.
    + destruct (String.eqb_spec k k'); [done|done].
    + by rewrite IH.
Qed.

(** With principals and nothing else, the document is the literal one with
    a [Principal] entry added to its statement. *)
Lemma create_assume_role_doc_principals (principals : list string) :
  create_assume_role_doc (Some principals) None None
  = Ok (PDict [("Version", PStr "2012-10-17");
               ("Statement",
                PList [PDict [("Effect", PStr "Allow");
                              ("Action", PStr "sts:AssumeRole");
                              ("Principal",
                               PDict [("AWS", PList (PStr <$> principals))])]])]).
Proof. reflexivity. Qed.

(** C6: with [aws_principals = ["A", "B"]] and neither a resource nor
    additional principals, [create_assume_role_doc] returns a document with
    exactly one statement, whose [Principal.AWS] is [["A", "B"]], whose
    [Action] is [sts:AssumeRole] and whose [Effect] is [Allow]. *)
Theorem create_assume_role_doc_A_B :
  ∃ document statement,
    create_assume_role_doc (Some ["A"; "B"]) None None = Ok document
    ∧ py_get document "Statement" = Ok (PList [statement])
    ∧ trusted_principals document = Ok (PList [PStr "A"; PStr "B"])
    ∧ py_get statement "Action" = Ok (PStr "sts:AssumeRole")
    ∧ py_get statement "Effect" = Ok (PStr "Allow").
Proof.
  rewrite create_assume_role_doc_principals.
  eexists _, _. split; [reflexivity|].
  split; [reflexivity|]. by repeat split.
Qed.

(** C10, as it is stated, fails when the additional principals are an empty
    dict: the loop body never runs and the document is returned. *)
Lemma create_assume_role_doc_empty_additional :
  create_assume_role_doc None None (Some [])
  = Ok (PDict [("Version", PStr "2012-10-17");
               ("Statement",
                PList [PDict [("Effect", PStr "Allow");
                              ("Action", PStr "sts:AssumeRole")]])])
  ∧ ¬ ∃ key, create_assume_role_doc None None (Some []) = Raise (KeyError key).
Proof.
  split; [reflexivity|]. intros [key Hkey]. discriminate Hkey.
Qed.

(** C10, amended: without AWS principals and with at least one additional
    principal, [create_assume_role_doc] ends with [KeyError('Principal')],
    whatever the resource. *)
Theorem create_assume_role_doc_additional_only
    (resource : option string) (k : string) (v : pyval)
    (rest : list (string * pyval)) :
  create_assume_role_doc None resource (Some ((k, v) :: rest))
  = Raise (KeyError "Principal").
Proof. reflexivity. Qed.

(** ** validate_correct_account *)

Lemma validate_correct_account_run (role_must_exist : string) (w : world) :
  validate_correct_account role_must_exist w
  = match roles w !! role_must_exist with
    | Some _ => (Ok true, record (GetRole role_must_exist) None w)
    | None =>
        (Ok false, record (GetRole role_must_exist) (Some NoSuchEntityException) w)
    end.
Proof.
  unfold validate_correct_account, get_role. unfold_monad.
  by destruct (roles w !! role_must_exist).
Qed.

(** C8: [validate_correct_account] returns a boolean in every account, and
    the boolean is [True] exactly when a role of the given name exists; a
    missing role gives [False], not an exception. *)
Theorem validate_correct_account_iff (role_must_exist : string) (w : world) :
  ∃ b w',
    validate_correct_account role_must_exist w = (Ok b, w')
    ∧ (b = true ↔ is_Some (roles w !! role_must_exist)).
Proof.
  rewrite validate_correct_account_run.
  destruct (roles w !! role_must_exist) as [r|] eqn:Hr.
  - eexists true, _. split; [done|]. split; [by eauto|done].
  - eexists false, _. split; [done|]. split; [done|]. by intros [? ?].
Qed.

(** ** add_aws_trust_to_role *)

Lemma str_eq_py_true (a : string) (x : pyval) : str_eq_py a x = true ↔ x = PStr a.
Proof.
  destruct x as [|s|l|kv]; simpl; try (split; [discriminate|discriminate]).
  rewrite String.eqb_eq. split; [by intros ->|]. by intros [= ->].
Qed.

Lemma existsb_str_eq_py (a : string) (l : list pyval) :
  existsb (str_eq_py a) l = true ↔ PStr a ∈ l.
Proof.
  rewrite existsb_exists. split.
  - intros [x [Hin Hx]]. apply str_eq_py_true in Hx as ->. by apply list_elem_of_In.
  - intros Hin. exists (PStr a). split; [by apply list_elem_of_In|].
    by apply str_eq_py_true.
Qed.

Lemma trusted_principals_shape (policy_doc v : pyval) :
  trusted_principals policy_doc = Ok v →
  ∃ kv st rest pr,
    policy_doc = PDict kv
    ∧ dict_get "Statement" kv = Some (PList (PDict st :: rest))
    ∧ dict_get "Principal" st = Some (PDict pr)
    ∧ default PNone (dict_get "AWS" pr) = v.
Proof.
  unfold trusted_principals, statement0. unfold_monad.
  destruct policy_doc as [|s|l|kv]; simpl; try discriminate.
  destruct (dict_get "Statement" kv) as [stmts|] eqn:Hst; simpl; [|discriminate].
  destruct stmts as [|s|[|[|s|l|st] rest]|kv']; simpl; try discriminate.
  - destruct s; simpl; discriminate.
  - destruct (dict_get "Principal" st) as [[|s|l|pr]|] eqn:Hpr; simpl; try discriminate.
    intros [= <-]. by eexists _, _, _, _.
Qed.

Lemma trusted_principals_written (kv st pr : list (string * pyval))
    (rest : list pyval) (v : pyval) :
  trusted_principals
    (PDict (dict_set "Statement"
              (PList (PDict (dict_set "Principal" (PDict (dict_set "AWS" v pr)) st)
                      :: rest)) kv))
  = Ok v.
Proof.
  unfold trusted_principals, statement0. unfold_monad. simpl.
  rewrite dict_get_set_eq. simpl. rewrite dict_get_set_eq. simpl.
  by rewrite dict_get_set_eq.
Qed.

(** C4: on a role whose trust document holds a list of AWS principals,
    [add_aws_trust_to_role] reads the role, and writes a trust document back
    to it.  When the account id is in the list the document is the one that
    was read; when it is not, the list in the written document is the old one
    with the account id appended at its end. *)
Theorem add_aws_trust_to_role_list (account_id role_name : string) (w : world)
    (r : Role) (l : list pyval) :
  roles w !! role_name = Some r →
  trusted_principals (AssumeRolePolicyDocument r) = Ok (PList l) →
  ∃ policy_doc w',
    add_aws_trust_to_role account_id role_name w = (Ok (), w')
    ∧ new_events w w'
      = [(GetRole role_name, None); (GetRole role_name, None);
         (UpdateAssumeRolePolicy role_name (json_dumps policy_doc), None)]
    ∧ AssumeRolePolicyDocument <$> roles w' !! role_name = Some policy_doc
    ∧ (PStr account_id ∈ l →
       policy_doc = AssumeRolePolicyDocument r
       ∧ trusted_principals policy_doc = Ok (PList l))
    ∧ (PStr account_id ∉ l →
       trusted_principals policy_doc = Ok (PList (l ++ [PStr account_id]))).
Proof.
  intros Hrole Htrust.
  destruct (trusted_principals_shape _ _ Htrust)
    as (kv & st & rest & pr & Hdoc & Hst & Hpr & Haws).
  unfold add_aws_trust_to_role. unfold_monad.
  rewrite validate_correct_account_run, Hrole.
  unfold get_role, update_assume_role_policy. unfold_monad. simpl.
  rewrite Hrole. simpl. rewrite Hdoc. unfold statement0. unfold_monad. simpl.
  rewrite Hst. simpl. rewrite Hpr. simpl. rewrite Haws. simpl.
  destruct (existsb (str_eq_py account_id) l) eqn:Hin; simpl; rewrite Hrole; simpl.
  - eexists _, _. split; [reflexivity|]. split.
    { apply new_events_app. simpl. by rewrite <- !app_assoc. }
    split; [simpl; by rewrite lookup_insert_eq|].
    apply existsb_str_eq_py in Hin. split.
    + intros _. split; [done|]. by rewrite <- Hdoc.
    + intros Hnot. by destruct Hnot.
  - eexists _, _. split; [reflexivity|]. split.
    { apply new_events_app. simpl. by rewrite <- !app_assoc. }
    split; [simpl; by rewrite lookup_insert_eq|].
    split.
    + intros Hyes. apply existsb_str_eq_py in Hyes. congruence.
    + intros _. by apply trusted_principals_written.
Qed.

Lemma add_aws_trust_to_role_list_witness :
  ∃ policy_doc w',
    add_aws_trust_to_role "222222222222" "DataMeshManager" account_with_manager
    = (Ok (), w')
    ∧ new_events account_with_manager w'
      = [(GetRole "DataMeshManager", None); (GetRole "DataMeshManager", None);
         (UpdateAssumeRolePolicy "DataMeshManager" (json_dumps policy_doc), None)]
    ∧ AssumeRolePolicyDocument <$> roles w' !! "DataMeshManager" = Some policy_doc
    ∧ (PStr "222222222222" ∈ [PStr "333333333333"] →
       policy_doc = AssumeRolePolicyDocument manager_role
       ∧ trusted_principals policy_doc = Ok (PList [PStr "333333333333"]))
    ∧ (PStr "222222222222" ∉ [PStr "333333333333"] →
       trusted_principals policy_doc
       = Ok (PList ([PStr "333333333333"] ++ [PStr "222222222222"]))).
Proof.
  apply (add_aws_trust_to_role_list "222222222222" "DataMeshManager"
           account_with_manager manager_role [PStr "333333333333"]);
    reflexivity.
Defined.

(** ** DataMeshConsumer *)

Section DataMeshConsumer_facts.
Context {K : Constants}.

(** With no region in the environment and a level that [logging] knows,
    construction still starts with the call for the caller's identity and
    goes on to assume the role. *)
Lemma init_calls_before_region_check (data_mesh_account_id log_level : string)
    (w : world) :
  AWS_REGION w = None →
  log_level ∈ level_names →
  ∃ r w' o rest,
    __init__ data_mesh_account_id log_level w = (r, w')
    ∧ new_events w w'
      = (GetCallerIdentity, None)
        :: (AssumeRole (get_datamesh_consumer_role_arn data_mesh_account_id)
              (user_id w +:+ "-" +:+ account w +:+ "-" +:+ today w), o)
        :: rest.
Proof.
  intros Hregion Hlevel.
  unfold __init__, getenv_AWS_REGION, logger_setLevel, get_caller_identity, now_Ymd,
    assume_role, SubscriberTracker_new.
  rewrite bool_decide_eq_true_2 by done.
  unfold_monad. simpl. rewrite Hregion.
  case_bool_decide; eexists _, _, _, _; (split; [reflexivity|]);
    apply new_events_app; simpl; by rewrite <- ?app_assoc.
Qed.

(** C7: in an account without the administrative role,
    [initialize_consumer_account] ends with an exception after a single
    [get_role] request: nothing is created or attached, and the roles,
    policies, users and groups of the account are what they were. *)
Theorem initialize_consumer_account_wrong_account
    (self : DataMeshConsumer) (w : world) :
  roles w !! DATA_MESH_ADMIN_CONSUMER_ROLENAME = None →
  let w' :=
    record (GetRole DATA_MESH_ADMIN_CONSUMER_ROLENAME) (Some NoSuchEntityException) w in
  initialize_consumer_account (self, w)
  = (Raise (PyException "Function should be run in the Data Consumer Account"),
     (self, w'))
  ∧ Forall (fun ev => is_mutation ev.1 = false) (new_events w w')
  ∧ roles w' = roles w ∧ policies w' = policies w ∧ attachable w' = attachable w
  ∧ users w' = users w ∧ groups w' = groups w.
Proof.
  intros Hrole w'. split.
  - unfold initialize_consumer_account, _check_acct. unfold_monad.
    rewrite validate_correct_account_run, Hrole. done.
  - subst w'. rewrite new_events_record. split; [|done].
    by repeat constructor.
Qed.

End DataMeshConsumer_facts.

Lemma initialize_consumer_account_wrong_account_witness :
  roles fresh_account !! "DataMeshAdminConsumer" = None
  ∧ initialize_consumer_account (K := example_constants)
      (example_consumer, fresh_account)
    = (Raise (PyException "Function should be run in the Data Consumer Account"),
       (example_consumer,
        record (GetRole "DataMeshAdminConsumer") (Some NoSuchEntityException)
          fresh_account)).
Proof.
  split; [reflexivity|].
  apply (initialize_consumer_account_wrong_account (K := example_constants)
           example_consumer fresh_account).
  reflexivity.
Defined.

(** C1 at a failing input: in a process without AWS_REGION whose
    credentials may assume the consumer role, construction asks for the
    caller's identity, assumes the role and constructs the tracker with no
    region, and only then raises the configuration error. *)
Theorem init_without_region_runs_calls :
  AWS_REGION fresh_account = None
  ∧ construction_without_region.1
    = Raise (PyException
        "Cannot create a Data Mesh Consumer without AWS_REGION environment variable")
  ∧ new_events fresh_account construction_without_region.2
    = [(GetCallerIdentity, None);
       (AssumeRole
          "arn:aws:iam::999999999999:role/AwsDataMesh/DataMeshAdminConsumer"
          "AIDAEXAMPLE-111111111111-2021-10-01", None);
       (NewSubscriberTracker example_credentials None "INFO", None)]
  ∧ Forall (fun ev => is_network_call ev.1 = true)
      (new_events fresh_account construction_without_region.2).
Proof.
  split; [reflexivity|]. split; [vm_compute; reflexivity|].
  assert (Hlog : new_events fresh_account construction_without_region.2
    = [(GetCallerIdentity, None);
       (AssumeRole
          "arn:aws:iam::999999999999:role/AwsDataMesh/DataMeshAdminConsumer"
          "AIDAEXAMPLE-111111111111-2021-10-01", None);
       (NewSubscriberTracker example_credentials None "INFO", None)])
    by (vm_compute; reflexivity).
  split; [exact Hlog|]. rewrite Hlog. by repeat constructor.
Qed.

(** ** create_assume_role_doc inside the provisioning routines *)

Lemma create_assume_role_doc_resource (role_arn : string) :
  create_assume_role_doc None (Some role_arn) None
  = Ok (PDict [("Version", PStr "2012-10-17");
               ("Statement",
                PList [PDict [("Effect", PStr "Allow");
                              ("Action", PStr "sts:AssumeRole");
                              ("Resource", PStr role_arn)]])]).
Proof. reflexivity. Qed.

(** Merging additional principals into a statement that has a [Principal]
    dict succeeds, and leaves the [AWS] entry alone unless one of the
    additional keys is [AWS]. *)
Lemma merge_principals_ok (items : list (string * pyval)) (rest : list pyval) :
  ∀ (v : pyval) (pr st kv : list (string * pyval)),
    dict_get "Statement" kv = Some (PList (PDict st :: rest)) →
    dict_get "Principal" st = Some (PDict pr) →
    dict_get "AWS" pr = Some v →
    ∃ document,
      merge_principals items (PDict kv) = Ok document
      ∧ (dict_get "AWS" items = None → trusted_principals document = Ok v).
Proof.
  induction items as [|[k x] items IH]; intros v pr st kv Hst Hpr Haws.
  - eexists. split; [reflexivity|]. intros _.
    unfold trusted_principals, statement0. unfold_monad. simpl.
    rewrite Hst. simpl. rewrite Hpr. simpl. by rewrite Haws.
  - simpl. unfold set_in_principal, statement0. unfold_monad. simpl.
    rewrite Hst. simpl. rewrite Hpr. simpl.
    destruct (String.eqb_spec k "AWS") as [->|Hk].
    + edestruct (IH x) as (document & Hrun & _);
        [apply dict_get_set_eq|apply dict_get_set_eq|apply dict_get_set_eq|].
      exists document. split; [exact Hrun|]. intros [=].
    + edestruct (IH v) as (document & Hrun & Htrust);
        [apply dict_get_set_eq|apply dict_get_set_eq| |].
      { rewrite dict_get_set_ne; [exact Haws|done]. }
      exists document. split; [exact Hrun|]. exact Htrust.
Qed.

Lemma create_assume_role_doc_trust (principals : list string)
    (additional : option (list (string * pyval))) :
  ∃ document,
    create_assume_role_doc (Some principals) None additional = Ok document
    ∧ (no_AWS_entry additional →
       trusted_principals document = Ok (PList (PStr <$> principals))).
Proof.
  destruct additional as [items|].
  - unfold create_assume_role_doc. unfold_monad. simpl.
    edestruct (merge_principals_ok items) as (document & -> & Htrust);
      [reflexivity|reflexivity|reflexivity|].
    exists document. split; [done|]. intros Hno. by apply Htrust, Hno.
  - eexists. by rewrite create_assume_role_doc_principals.
Qed.

(** ** Relations kept by every request *)

Section preserves.
Context (R : relation world) `{!Reflexive R} `{!Transitive R}.

Lemma preserves_ret {A} (a : A) : preserves R (mret a).
Proof. intros w. simpl. reflexivity. Qed.

Lemma preserves_raise {A} (e : exn) : preserves R (@raise world A e).
Proof. intros w. simpl. reflexivity. Qed.

Lemma preserves_lift {A} (r : res A) : preserves R (lift r).
Proof. intros w. simpl. reflexivity. Qed.

Lemma preserves_bind {A B} (m : M world A) (f : A → M world B) :
  preserves R m → (∀ a, preserves R (f a)) → preserves R (m ≫= f).
Proof.
  intros Hm Hf w. specialize (Hm w). unfold mbind, M_bind.
  destruct (m w) as [[a|e] w1]; simpl in *; [|done].
  etrans; [exact Hm|apply Hf].
Qed.

Lemma preserves_try_except {A} (body handler : M world A) (catches : exn → bool) :
  preserves R body → preserves R handler →
  preserves R (try_except body catches handler).
Proof.
  intros Hb Hh w. specialize (Hb w). unfold try_except.
  destruct (body w) as [[a|e] w1]; simpl in *; [done|].
  destruct (catches e); [|done].
  etrans; [exact Hb|apply Hh].
Qed.

Lemma preserves_run {A} (m : M world A) (w w' : world) (r : res A) :
  preserves R m → m w = (r, w') → R w w'.
Proof. intros Hm Hrun. specialize (Hm w). by rewrite Hrun in Hm. Qed.

End preserves.

Ltac preserves_steps :=
  repeat first
    [ apply preserves_ret; tc_solve
    | apply preserves_raise; tc_solve
    | apply preserves_lift; tc_solve
    | apply preserves_try_except; [tc_solve .. | | ]
    | apply preserves_bind; [tc_solve .. | | intros ?] ].

(** *** Only events of one kind are added *)

#[export] Instance only_events_refl P : Reflexive (only_events P).
Proof. intros w. exists []. by rewrite app_nil_r. Qed.

#[export] Instance only_events_trans P : Transitive (only_events P).
Proof.
  intros w1 w2 w3 (evs1 & H1 & HP1) (evs2 & H2 & HP2).
  exists (evs1 ++ evs2). split; [by rewrite H2, H1, app_assoc|].
  by apply Forall_app.
Qed.

Lemma only_events_new (P : event → Prop) (w w' : world) :
  only_events P w w' → Forall P (new_events w w').
Proof. intros (evs & Hlog & HP). by rewrite (new_events_app _ _ _ Hlog). Qed.

Lemma only_events_record (P : event → Prop) (c : call) (o : option exn) (w w' : world) :
  P (c, o) → log w' = log w → only_events P w (record c o w').
Proof. intros HP Hlog. exists [(c, o)]. simpl. rewrite Hlog. by repeat constructor. Qed.

Ltac unfold_iam :=
  unfold get_role, create_policy, create_user, create_group, add_user_to_group,
    create_role, attach_role_policy, attach_group_policy, update_assume_role_policy,
    read_resource, answer, refuse.

(** A request whose events all satisfy [P] adds only events that do. *)
Ltac one_event :=
  intros; intros ?; unfold_iam;
  repeat case_match; simpl;
  first [ reflexivity | apply only_events_record; [eauto|reflexivity] ].

Section only_events.
Context (P : event → Prop).

Lemma only_events_read_resource f : preserves (only_events P) (read_resource f).
Proof. one_event. Qed.
Lemma only_events_get_role n :
  (∀ o, P (GetRole n, o)) → preserves (only_events P) (get_role n).
Proof. one_event. Qed.
Lemma only_events_create_policy n p d desc tags :
  (∀ o, P (CreatePolicy n p d, o)) →
  preserves (only_events P) (create_policy n p d desc tags).
Proof. one_event. Qed.
Lemma only_events_create_user p n tags :
  (∀ o, P (CreateUser p n, o)) → preserves (only_events P) (create_user p n tags).
Proof. one_event. Qed.
Lemma only_events_create_group p n :
  (∀ o, P (CreateGroup p n, o)) → preserves (only_events P) (create_group p n).
Proof. one_event. Qed.
Lemma only_events_add_user_to_group g u :
  (∀ o, P (AddUserToGroup g u, o)) → preserves (only_events P) (add_user_to_group g u).
Proof. one_event. Qed.
Lemma only_events_create_role p n d desc tags :
  (∀ o, P (CreateRole p n d, o)) →
  preserves (only_events P) (create_role p n d desc tags).
Proof. one_event. Qed.
Lemma only_events_attach_role_policy n a :
  (∀ o, P (AttachRolePolicy n a, o)) → preserves (only_events P) (attach_role_policy n a).
Proof. one_event. Qed.
Lemma only_events_attach_group_policy n a :
  (∀ o, P (AttachGroupPolicy n a, o)) →
  preserves (only_events P) (attach_group_policy n a).
Proof. one_event. Qed.

End only_events.

(** *** Roles keep their ARN and their trust document *)

#[export] Instance roles_kept_refl : Reflexive roles_kept.
Proof. by intros w n. Qed.

#[export] Instance roles_kept_trans : Transitive roles_kept.
Proof. intros w1 w2 w3 H1 H2 n. by rewrite H2, H1. Qed.

Ltac keeps_roles :=
  intros ?; unfold_iam; repeat case_match; simpl; try reflexivity;
  intros n'; simpl; try reflexivity;
  match goal with
  | |- context [<[?n:=_]> _ !! n'] =>
      destruct (decide (n = n')) as [<-|];
      [rewrite lookup_insert_eq; simpl;
       match goal with H : _ !! _ = Some _ |- _ => by rewrite H end
      |by rewrite lookup_insert_ne]
  end.

Lemma roles_kept_read_resource f : preserves roles_kept (read_resource f).
Proof. keeps_roles. Qed.
Lemma roles_kept_get_role n : preserves roles_kept (get_role n).
Proof. keeps_roles. Qed.
Lemma roles_kept_create_policy n p d desc tags :
  preserves roles_kept (create_policy n p d desc tags).
Proof. keeps_roles. Qed.
Lemma roles_kept_create_user p n tags : preserves roles_kept (create_user p n tags).
Proof. keeps_roles. Qed.
Lemma roles_kept_create_group p n : preserves roles_kept (create_group p n).
Proof. keeps_roles. Qed.
Lemma roles_kept_add_user_to_group g u : preserves roles_kept (add_user_to_group g u).
Proof. keeps_roles. Qed.
Lemma roles_kept_attach_role_policy n a : preserves roles_kept (attach_role_policy n a).
Proof. keeps_roles. Qed.
Lemma roles_kept_attach_group_policy n a : preserves roles_kept (attach_group_policy n a).
Proof. keeps_roles. Qed.

(** *** What exists keeps existing *)

#[export] Instance extends_refl : Reflexive extends.
Proof. by intros w. Qed.

#[export] Instance extends_trans : Transitive extends.
Proof.
  intros w1 w2 w3 (Ha & Hf & Hp & Ht & Hu & Hg & Hr & Hx)
    (Ha' & Hf' & Hp' & Ht' & Hu' & Hg' & Hr' & Hx').
  repeat split; [congruence|congruence|set_solver..| |congruence].
  intros n a Hn. by apply Hr', Hr.
Qed.

Ltac extends_request :=
  intros w; unfold_iam; repeat case_match; simpl; try reflexivity;
  (repeat split; simpl; try done; try set_solver);
  intros n' a';
  match goal with
  | |- context [<[?n:=_]> _ !! n'] =>
      destruct (decide (n = n')) as [<-|];
      [rewrite lookup_insert_eq; simpl;
       match goal with H : _ !! _ = _ |- _ => by rewrite H end
      |by rewrite lookup_insert_ne]
  end.

Lemma extends_read_resource f : preserves extends (read_resource f).
Proof. extends_request. Qed.
Lemma extends_get_role n : preserves extends (get_role n).
Proof. extends_request. Qed.
Lemma extends_create_policy n p d desc tags :
  preserves extends (create_policy n p d desc tags).
Proof. extends_request. Qed.
Lemma extends_create_user p n tags : preserves extends (create_user p n tags).
Proof. extends_request. Qed.
Lemma extends_create_group p n : preserves extends (create_group p n).
Proof. extends_request. Qed.
Lemma extends_add_user_to_group g u : preserves extends (add_user_to_group g u).
Proof. extends_request. Qed.
Lemma extends_create_role p n d desc tags :
  preserves extends (create_role p n d desc tags).
Proof. extends_request. Qed.
Lemma extends_attach_role_policy n a : preserves extends (attach_role_policy n a).
Proof. extends_request. Qed.
Lemma extends_attach_group_policy n a : preserves extends (attach_group_policy n a).
Proof. extends_request. Qed.

Create HintDb iam discriminated.
#[export] Hint Resolve only_events_read_resource only_events_get_role
  only_events_create_policy only_events_create_user only_events_create_group
  only_events_add_user_to_group only_events_create_role
  only_events_attach_role_policy only_events_attach_group_policy
  roles_kept_read_resource roles_kept_get_role roles_kept_create_policy
  roles_kept_create_user roles_kept_create_group roles_kept_add_user_to_group
  roles_kept_attach_role_policy roles_kept_attach_group_policy
  extends_read_resource extends_get_role extends_create_policy
  extends_create_user extends_create_group extends_add_user_to_group
  extends_create_role extends_attach_role_policy extends_attach_group_policy : iam.

(** ** The steps of configure_iam *)

Section steps_facts.
Context {K : Constants}.

Lemma configure_iam_steps
    (policy_name policy_desc policy_template role_name role_desc account_id : string)
    (config : option pyval) (additional : option (list (string * pyval))) :
  configure_iam policy_name policy_desc policy_template role_name role_desc
    account_id config additional
  = (policy_arn ← policy_step policy_name policy_desc policy_template account_id config;
     _ ← user_step role_name;
     _ ← group_step role_name;
     _ ← membership_step role_name;
     role_arn ← role_step role_name role_desc account_id additional;
     attach_steps role_name account_id policy_arn role_arn).
Proof. reflexivity. Qed.

(** What the role step does, once the trust document is built. *)
Lemma role_step_run (role_name role_desc account_id : string)
    (additional : option (list (string * pyval))) (document : pyval) (w : world) :
  create_assume_role_doc
    (Some ["arn:aws:iam::" +:+ account_id +:+ ":user" +:+ DATA_MESH_IAM_PATH
           +:+ role_name;
           "arn:aws:iam::" +:+ account_id +:+ ":root"]) None additional
  = Ok document →
  role_step role_name role_desc account_id additional w
  = match roles w !! role_name with
    | Some r =>
        (Ok (RoleArn r),
         record (GetRole role_name) None
           (record (CreateRole DATA_MESH_IAM_PATH role_name (json_dumps document))
              (Some EntityAlreadyExistsException) w))
    | None =>
        let r := {| RoleArn := service_arn w "role" DATA_MESH_IAM_PATH role_name;
                    RolePath := DATA_MESH_IAM_PATH;
                    AssumeRolePolicyDocument := document;
                    RoleDescription := role_desc; RoleTags := DEFAULT_TAGS;
                    RoleAttachedPolicies := [] |} in
        (Ok (RoleArn r),
         record (CreateRole DATA_MESH_IAM_PATH role_name (json_dumps document)) None
           (set_roles <[role_name := r]> w))
    end.
Proof.
  intros Hdoc. unfold role_step. rewrite Hdoc.
  unfold get_role, create_role. unfold_monad. simpl.
  destruct (roles w !! role_name) as [r|] eqn:Hr; simpl; [|done].
  by rewrite Hr.
Qed.

Lemma policy_step_keeps_roles pn pd pt acc cfg :
  preserves roles_kept (policy_step pn pd pt acc cfg).
Proof. unfold policy_step, generate_policy. preserves_steps; eauto with iam. Qed.

Lemma user_step_keeps_roles rn : preserves roles_kept (user_step rn).
Proof. unfold user_step. preserves_steps; eauto with iam. Qed.

Lemma group_step_keeps_roles rn : preserves roles_kept (group_step rn).
Proof. unfold group_step. preserves_steps; eauto with iam. Qed.

Lemma membership_step_keeps_roles rn : preserves roles_kept (membership_step rn).
Proof. unfold membership_step. preserves_steps; eauto with iam. Qed.

Lemma attach_steps_keep_roles rn acc pa ra :
  preserves roles_kept (attach_steps rn acc pa ra).
Proof.
  unfold attach_steps, create_assume_role_policy. preserves_steps; eauto with iam.
Qed.

Lemma policy_step_events pn pd pt acc cfg :
  preserves (only_events before_role_event) (policy_step pn pd pt acc cfg).
Proof.
  unfold policy_step, generate_policy. preserves_steps; eauto with iam.
  apply only_events_create_policy. by intros.
Qed.

Lemma user_step_events rn : preserves (only_events before_role_event) (user_step rn).
Proof.
  unfold user_step. preserves_steps; eauto with iam.
  apply only_events_create_user. by intros.
Qed.

Lemma group_step_events rn : preserves (only_events before_role_event) (group_step rn).
Proof.
  unfold group_step. preserves_steps; eauto with iam.
  apply only_events_create_group. by intros.
Qed.

Lemma membership_step_events rn :
  preserves (only_events before_role_event) (membership_step rn).
Proof.
  unfold membership_step. preserves_steps; eauto with iam.
  apply only_events_add_user_to_group. by intros.
Qed.

(** On a policy name that is taken, the policy step answers with the ARN
    built from the template. *)
Lemma policy_step_conflict pn pd pt acc cfg (w w1 : world) (pa : string) :
  is_Some (policies w !! pn) →
  policy_step pn pd pt acc cfg w = (Ok pa, w1) →
  pa = "arn:aws:iam::" +:+ acc +:+ ":policy" +:+ DATA_MESH_IAM_PATH +:+ pn.
Proof.
  intros [p Hp]. unfold policy_step, generate_policy, read_resource, create_policy.
  unfold_monad. destruct (resource_files w !! pt); simpl; [|discriminate].
  destruct (policy_grammar w _); simpl; [|discriminate].
  rewrite Hp. simpl. by intros [= <- _].
Qed.

Lemma create_assume_role_policy_conflict acc name role_arn (w : world) :
  is_Some (policies w !! name) →
  create_assume_role_policy acc name role_arn w
  = (Ok ("arn:aws:iam::" +:+ acc +:+ ":policy" +:+ DATA_MESH_IAM_PATH +:+ name),
     record
       (CreatePolicy name DATA_MESH_IAM_PATH
          (json_dumps
             (PDict [("Version", PStr "2012-10-17");
                     ("Statement",
                      PList [PDict [("Effect", PStr "Allow");
                                    ("Action", PStr "sts:AssumeRole");
                                    ("Resource", PStr role_arn)]])])))
       (Some EntityAlreadyExistsException) w).
Proof.
  intros [p Hp]. unfold create_assume_role_policy, create_policy.
  rewrite create_assume_role_doc_resource. unfold_monad. simpl. by rewrite Hp.
Qed.

Lemma attach_steps_events rn acc pa ra :
  preserves (only_events (after_role_event pa)) (attach_steps rn acc pa ra).
Proof.
  unfold attach_steps, create_assume_role_policy. preserves_steps; eauto with iam.
  - apply only_events_attach_role_policy. by intros.
  - apply only_events_create_policy. by intros.
  - apply only_events_attach_group_policy. by intros.
Qed.

Lemma attach_steps_result rn acc pa ra (w w' : world) (a : string) :
  attach_steps rn acc pa ra w = (Ok a, w') → a = ra.
Proof.
  unfold attach_steps. unfold mbind, mret, M_bind, M_ret.
  destruct (attach_role_policy _ _ w) as [[[]|?] w1]; [|discriminate].
  destruct (create_assume_role_policy _ _ _ w1) as [[?|?] w2]; [|discriminate].
  destruct (attach_group_policy _ _ w2) as [[[]|?] w3]; [|discriminate].
  by intros [= <- _].
Qed.

(** The anatomy of a run of [configure_iam]: requests of the steps before
    the role step, then the role step, which either creates the role or finds
    it taken and looks it up, then the attachments. *)
Lemma configure_iam_shape
    (policy_name policy_desc policy_template role_name role_desc account_id : string)
    (config : option pyval) (additional : option (list (string * pyval)))
    (w : world) :
  let run := configure_iam policy_name policy_desc policy_template role_name
               role_desc account_id config additional w in
  ∃ evs1 evs2 policy_arn document,
    create_assume_role_doc
      (Some ["arn:aws:iam::" +:+ account_id +:+ ":user" +:+ DATA_MESH_IAM_PATH
             +:+ role_name;
             "arn:aws:iam::" +:+ account_id +:+ ":root"]) None additional
    = Ok document
    ∧ Forall before_role_event evs1
    ∧ Forall (after_role_event policy_arn) evs2
    ∧ (is_Some (policies w !! policy_name) →
       policy_arn = "arn:aws:iam::" +:+ account_id +:+ ":policy"
                    +:+ DATA_MESH_IAM_PATH +:+ policy_name)
    ∧ ((new_events w run.2 = evs1 ∧ ∃ e, run.1 = Raise e)
       ∨ (∃ r0,
            roles w !! role_name = Some r0
            ∧ new_events w run.2
              = evs1 ++ [(CreateRole DATA_MESH_IAM_PATH role_name (json_dumps document),
                          Some EntityAlreadyExistsException);
                         (GetRole role_name, None)] ++ evs2
            ∧ ∀ a, run.1 = Ok a → a = RoleArn r0)
       ∨ (roles w !! role_name = None
          ∧ new_events w run.2
            = evs1 ++ [(CreateRole DATA_MESH_IAM_PATH role_name (json_dumps document),
                        None)] ++ evs2
          ∧ AssumeRolePolicyDocument <$> roles run.2 !! role_name = Some document)).
Proof.
  intros run. subst run. rewrite configure_iam_steps.
  destruct (create_assume_role_doc_trust
    ["arn:aws:iam::" +:+ account_id +:+ ":user" +:+ DATA_MESH_IAM_PATH +:+ role_name;
     "arn:aws:iam::" +:+ account_id +:+ ":root"] additional)
    as (document & Hdoc & _).
  unfold mbind, M_bind.
  destruct (policy_step _ _ _ _ _ w) as [[policy_arn|e] w1] eqn:E1;
    pose proof (preserves_run _ _ _ _ _ (policy_step_events _ _ _ _ _) E1) as H1.
  2:{ destruct H1 as (evs1 & Hlog & HP).
      exists evs1, [],
        ("arn:aws:iam::" +:+ account_id +:+ ":policy" +:+ DATA_MESH_IAM_PATH
         +:+ policy_name), document.
      repeat split; [done|done|done|].
      left. split; [by apply new_events_app|by eexists]. }
  assert (Hpa : is_Some (policies w !! policy_name) →
                policy_arn = "arn:aws:iam::" +:+ account_id +:+ ":policy"
                             +:+ DATA_MESH_IAM_PATH +:+ policy_name)
    by (intros Hp; by eapply policy_step_conflict).
  pose proof (preserves_run _ _ _ _ _ (policy_step_keeps_roles _ _ _ _ _) E1) as K1.
  destruct (user_step _ w1) as [[[]|e] w2] eqn:E2;
    pose proof (preserves_run _ _ _ _ _ (user_step_events _) E2) as H2;
    pose proof (transitivity H1 H2) as H12.
  2:{ destruct H12 as (evs1 & Hlog & HP).
      exists evs1, [], policy_arn, document. repeat split; [done|done|done|done|].
      left. split; [by apply new_events_app|by eexists]. }
  pose proof (preserves_run _ _ _ _ _ (user_step_keeps_roles _) E2) as K2.
  destruct (group_step _ w2) as [[[]|e] w3] eqn:E3;
    pose proof (preserves_run _ _ _ _ _ (group_step_events _) E3) as H3;
    pose proof (transitivity H12 H3) as H13.
  2:{ destruct H13 as (evs1 & Hlog & HP).
      exists evs1, [], policy_arn, document. repeat split; [done|done|done|done|].
      left. split; [by apply new_events_app|by eexists]. }
  pose proof (preserves_run _ _ _ _ _ (group_step_keeps_roles _) E3) as K3.
  destruct (membership_step _ w3) as [[[]|e] w4] eqn:E4;
    pose proof (preserves_run _ _ _ _ _ (membership_step_events _) E4) as H4;
    pose proof (transitivity H13 H4) as (evs1 & Hlog1 & HP1).
  2:{ exists evs1, [], policy_arn, document. repeat split; [done|done|done|done|].
      left. split; [by apply new_events_app|by eexists]. }
  pose proof (preserves_run _ _ _ _ _ (membership_step_keeps_roles _) E4) as K4.
  assert (Hroles : roles_kept w w4) by (by repeat (etrans; [eassumption|])).
  clear H1 H2 H3 H4 H12 H13 K1 K2 K3 K4 E1 E2 E3 E4.
  rewrite (role_step_run _ _ _ _ _ _ Hdoc).
  specialize (Hroles role_name).
  destruct (roles w4 !! role_name) as [r|] eqn:Hr; cbv beta iota zeta;
    match goal with
    | |- context [attach_steps ?a ?b ?c ?d ?w5] =>
        pose proof (attach_steps_events a b c d w5) as (evs2 & Hlog2 & HP2);
        pose proof (attach_steps_keep_roles a b c d w5 role_name) as K5;
        pose proof (attach_steps_result a b c d w5) as Hres
    end;
    destruct (attach_steps _ _ _ _ _) as [r' w']; simpl in *;
    exists evs1, evs2, policy_arn, document;
    (repeat split; [done|done|done|done|]); right.
  - (* the name is taken: the role is looked up *)
    destruct (roles w !! role_name) as [r0|] eqn:Hr0; [|done].
    left. exists r0. split; [done|]. split.
    + apply new_events_app. by rewrite Hlog2, Hlog1, <- !app_assoc.
    + intros a ->. rewrite (Hres w' a eq_refl).
      unfold role_identity in Hroles. simpl in Hroles. by injection Hroles as ->.
  - (* the role is created *)
    right. split; [by destruct (roles w !! role_name)|]. split.
    + apply new_events_app. by rewrite Hlog2, Hlog1, <- !app_assoc.
    + rewrite lookup_insert_eq in K5.
      destruct (roles w' !! role_name) as [r5|]; [|done].
      unfold role_identity in K5. simpl in *. injection K5 as _ Hd. by rewrite Hd.
Qed.

End steps_facts.

(** Splits the membership [H] of an event in the log of a run into the part
    of the run it comes from, and looks at the kind of event it is there. *)
Ltac locate_event H HP1 HP2 :=
  rewrite ?elem_of_app, ?elem_of_cons, ?elem_of_nil in H;
  destruct_or? H;
  first [ apply HP1 in H | apply HP2 in H | idtac ];
  try done; try (subst; simpl in *; try done);
  try (match goal with
       | Hev : before_role_event ?ev |- _ => destruct ev as [[] ?]; simpl in *; try done
       | Hev : after_role_event _ ?ev |- _ => destruct ev as [[] ?]; simpl in *; try done
       end).

Section conflict_recovery.
Context {K : Constants}.









(** C9, amended: when the additional principals are absent or have no [AWS]
    key, every role that a run of [configure_iam] creates is created under
    the role name, did not exist before, and is stored with a trust document
    whose [Principal.AWS] is the list of the companion user's ARN and the
    account's root ARN, both built from [account_id]. *)
Theorem configure_iam_created_role_trust
    (policy_name policy_desc policy_template role_name role_desc account_id : string)
    (config : option pyval) (additional : option (list (string * pyval)))
    (w : world) (p n : string) (doc : document_text) :
  no_AWS_entry additional →
  let run := configure_iam policy_name policy_desc policy_template role_name
               role_desc account_id config additional w in
  (CreateRole p n doc, None) ∈ new_events w run.2 →
  ∃ policy_doc,
    p = DATA_MESH_IAM_PATH ∧ n = role_name ∧ doc = json_dumps policy_doc
    ∧ roles w !! role_name = None
    ∧ AssumeRolePolicyDocument <$> roles run.2 !! role_name = Some policy_doc
    ∧ trusted_principals policy_doc
      = Ok (PList [PStr ("arn:aws:iam::" +:+ account_id +:+ ":user"
                         +:+ DATA_MESH_IAM_PATH +:+ role_name);
                   PStr ("arn:aws:iam::" +:+ account_id +:+ ":root")]).
Proof.
  intros Hadd run Hin. subst run.
  destruct (configure_iam_shape policy_name policy_desc policy_template role_name
              role_desc account_id config additional w)
    as (evs1 & evs2 & pa & document & Hdoc & HP1 & HP2 & _ & Hcases).
  rewrite Forall_forall in HP1, HP2.
  destruct Hcases as [[Hev _]|[(r0 & Hr0 & Hev & _)|(Hr0 & Hev & Hstored)]];
    rewrite Hev in Hin; locate_event Hin HP1 HP2.
  injection Hin as -> -> ->. exists document. repeat split; [done|done|].
  destruct (create_assume_role_doc_trust
    ["arn:aws:iam::" +:+ account_id +:+ ":user" +:+ DATA_MESH_IAM_PATH +:+ role_name;
     "arn:aws:iam::" +:+ account_id +:+ ":root"] additional)
    as (document' & Hdoc' & Htrust).
  rewrite Hdoc in Hdoc'. injection Hdoc' as <-. by apply Htrust.
Qed.

End conflict_recovery.

Section twice.
Context {K : Constants}.

Lemma policy_step_extends pn pd pt acc cfg :
  preserves extends (policy_step pn pd pt acc cfg).
Proof. unfold policy_step, generate_policy. preserves_steps; eauto with iam. Qed.
Lemma user_step_extends rn : preserves extends (user_step rn).
Proof. unfold user_step. preserves_steps; eauto with iam. Qed.
Lemma group_step_extends rn : preserves extends (group_step rn).
Proof. unfold group_step. preserves_steps; eauto with iam. Qed.
Lemma membership_step_extends rn : preserves extends (membership_step rn).
Proof. unfold membership_step. preserves_steps; eauto with iam. Qed.
Lemma role_step_extends rn rd acc additional :
  preserves extends (role_step rn rd acc additional).
Proof. unfold role_step. preserves_steps; eauto with iam. Qed.
Lemma create_assume_role_policy_extends acc name ra :
  preserves extends (create_assume_role_policy acc name ra).
Proof. unfold create_assume_role_policy. preserves_steps; eauto with iam. Qed.

Lemma provisioned_extends pn pt cfg rn acc arn (w w' : world) :
  provisioned pn pt cfg rn acc arn w → extends w w' →
  provisioned pn pt cfg rn acc arn w'.
Proof.
  intros ((t & Ht & Hok) & Hp & Ha & Hu & Hg & Hr & Hq)
    (_ & Hf' & Hp' & Ha' & Hu' & Hg' & Hr' & Hx').
  split; [exists t; by rewrite Hf', Hx'|].
  repeat split; [set_solver..|by apply Hr'|set_solver].
Qed.

(** **** What a step that succeeds leaves behind *)

Lemma policy_step_ok pn pd pt acc cfg (w w1 : world) (pa : string) :
  account w = acc →
  policy_step pn pd pt acc cfg w = (Ok pa, w1) →
  pa = "arn:aws:iam::" +:+ acc +:+ ":policy" +:+ DATA_MESH_IAM_PATH +:+ pn
  ∧ (∃ template,
       resource_files w1 !! pt = Some template
       ∧ policy_grammar w1 (pystache_render template cfg) = true)
  ∧ pn ∈ dom (policies w1).
Proof.
  intros Hacc. unfold policy_step, generate_policy, read_resource, create_policy.
  unfold_monad. destruct (resource_files w !! pt) as [t|] eqn:Ht; simpl; [|discriminate].
  destruct (policy_grammar w (pystache_render t cfg)) eqn:Hok; simpl; [|discriminate].
  destruct (policies w !! pn) as [p|] eqn:Hp; simpl; intros [= ? ?]; subst; simpl.
  - split; [done|]. split; [by exists t|]. apply elem_of_dom; by eexists.
  - split; [reflexivity|]. split; [by exists t|].
    apply elem_of_dom. by rewrite lookup_insert_eq.
Qed.

Lemma user_step_ok rn (w w1 : world) (u : unit) :
  user_step rn w = (Ok u, w1) → rn ∈ dom (users w1).
Proof.
  unfold user_step, create_user. unfold_monad.
  destruct (users w !! rn) as [x|] eqn:Hu; simpl; intros [= ?]; subst; simpl;
    apply elem_of_dom; [by eexists|]. by rewrite lookup_insert_eq.
Qed.

Lemma group_step_ok rn (w w1 : world) (u : unit) :
  group_step rn w = (Ok u, w1) → (rn +:+ "Group") ∈ dom (groups w1).
Proof.
  unfold group_step, create_group. unfold_monad.
  destruct (groups w !! (rn +:+ "Group")) as [x|] eqn:Hg; simpl; intros [= ?]; subst; simpl;
    apply elem_of_dom; [by eexists|]. by rewrite lookup_insert_eq.
Qed.

Lemma role_step_ok rn rd acc additional (w w1 : world) (ra : string) :
  role_step rn rd acc additional w = (Ok ra, w1) →
  RoleArn <$> roles w1 !! rn = Some ra.
Proof.
  destruct (create_assume_role_doc_trust
    ["arn:aws:iam::" +:+ acc +:+ ":user" +:+ DATA_MESH_IAM_PATH +:+ rn;
     "arn:aws:iam::" +:+ acc +:+ ":root"] additional) as (document & Hdoc & _).
  rewrite (role_step_run _ _ _ _ _ _ Hdoc).
  destruct (roles w !! rn) as [r|] eqn:Hr; simpl; intros [= ? ?]; subst; simpl.
  - by rewrite Hr.
  - by rewrite lookup_insert_eq.
Qed.

Lemma attach_role_policy_ok rn pa (w w1 : world) (u : unit) :
  attach_role_policy rn pa w = (Ok u, w1) → pa ∈ attachable w.
Proof.
  unfold attach_role_policy, answer, refuse.
  destruct (roles w !! rn); [|discriminate]. by case_bool_decide.
Qed.

Lemma create_assume_role_policy_ok acc name ra (w w1 : world) (x : string) :
  create_assume_role_policy acc name ra w = (Ok x, w1) → name ∈ dom (policies w1).
Proof.
  unfold create_assume_role_policy, create_policy.
  rewrite create_assume_role_doc_resource. unfold_monad. simpl.
  destruct (policies w !! name) as [p|] eqn:Hp; simpl; intros [= ? ?]; subst; simpl;
    apply elem_of_dom; [by eexists|]. by rewrite lookup_insert_eq.
Qed.

(** **** The steps in an account that is provisioned *)

Lemma policy_step_again pn pd pt acc cfg (w : world) :
  (∃ template,
     resource_files w !! pt = Some template
     ∧ policy_grammar w (pystache_render template cfg) = true) →
  pn ∈ dom (policies w) →
  ∃ w1,
    policy_step pn pd pt acc cfg w
    = (Ok ("arn:aws:iam::" +:+ acc +:+ ":policy" +:+ DATA_MESH_IAM_PATH +:+ pn), w1).
Proof.
  intros (t & Ht & Hok) [p Hp]%elem_of_dom.
  unfold policy_step, generate_policy, read_resource, create_policy. unfold_monad.
  rewrite Ht. simpl. rewrite Hok. simpl. rewrite Hp. simpl. by eexists.
Qed.

Lemma user_step_returns rn (w : world) : ∃ w1, user_step rn w = (Ok (), w1).
Proof.
  unfold user_step, create_user. unfold_monad.
  destruct (users w !! rn); simpl; by eexists.
Qed.

Lemma group_step_returns rn (w : world) : ∃ w1, group_step rn w = (Ok (), w1).
Proof.
  unfold group_step, create_group. unfold_monad.
  destruct (groups w !! (rn +:+ "Group")); simpl; by eexists.
Qed.

Lemma membership_step_again rn (w : world) :
  rn ∈ dom (users w) → (rn +:+ "Group") ∈ dom (groups w) →
  ∃ w1, membership_step rn w = (Ok (), w1).
Proof.
  intros [u Hu]%elem_of_dom [g Hg]%elem_of_dom.
  unfold membership_step, add_user_to_group. unfold_monad.
  rewrite Hg, Hu. by eexists.
Qed.

Lemma role_step_again rn rd acc additional (w : world) (arn : string) :
  RoleArn <$> roles w !! rn = Some arn →
  ∃ w1, role_step rn rd acc additional w = (Ok arn, w1).
Proof.
  intros Hr.
  destruct (create_assume_role_doc_trust
    ["arn:aws:iam::" +:+ acc +:+ ":user" +:+ DATA_MESH_IAM_PATH +:+ rn;
     "arn:aws:iam::" +:+ acc +:+ ":root"] additional) as (document & Hdoc & _).
  rewrite (role_step_run _ _ _ _ _ _ Hdoc).
  destruct (roles w !! rn) as [r|]; [|done].
  injection Hr as <-. by eexists.
Qed.

Lemma attach_role_policy_again rn pa (w : world) (arn : string) :
  RoleArn <$> roles w !! rn = Some arn → pa ∈ attachable w →
  ∃ w1, attach_role_policy rn pa w = (Ok (), w1).
Proof.
  intros Hr Hpa. unfold attach_role_policy, answer, refuse.
  destruct (roles w !! rn) as [r|]; [|done].
  rewrite bool_decide_eq_true_2 by done. by eexists.
Qed.

Lemma create_assume_role_policy_returns acc name ra (w : world) :
  ∃ x w1, create_assume_role_policy acc name ra w = (Ok x, w1).
Proof.
  unfold create_assume_role_policy, create_policy.
  rewrite create_assume_role_doc_resource. unfold_monad. simpl.
  destruct (policies w !! name); simpl; by eexists _, _.
Qed.

Lemma attach_group_policy_again g pa (w : world) :
  g ∈ dom (groups w) → pa ∈ attachable w →
  ∃ w1, attach_group_policy g pa w = (Ok (), w1).
Proof.
  intros [x Hg]%elem_of_dom Hpa. unfold attach_group_policy, answer, refuse.
  rewrite Hg. rewrite bool_decide_eq_true_2 by done. by eexists.
Qed.

(** A run that returns leaves a provisioned account. *)
Lemma configure_iam_provisions
    (policy_name policy_desc policy_template role_name role_desc account_id : string)
    (config : option pyval) (additional : option (list (string * pyval)))
    (w w' : world) (arn : string) :
  account w = account_id →
  configure_iam policy_name policy_desc policy_template role_name role_desc
    account_id config additional w = (Ok arn, w') →
  provisioned policy_name policy_template config role_name account_id arn w'.
Proof.
  intros Hacc. rewrite configure_iam_steps. unfold attach_steps.
  unfold mbind, mret, M_bind, M_ret.
  destruct (policy_step _ _ _ _ _ w) as [[pa|?] w1] eqn:E1; [|discriminate].
  destruct (user_step _ w1) as [[[]|?] w2] eqn:E2; [|discriminate].
  destruct (group_step _ w2) as [[[]|?] w3] eqn:E3; [|discriminate].
  destruct (membership_step _ w3) as [[[]|?] w4] eqn:E4; [|discriminate].
  destruct (role_step _ _ _ _ w4) as [[ra|?] w5] eqn:E5; [|discriminate].
  destruct (attach_role_policy _ _ w5) as [[[]|?] w6] eqn:E6; [|discriminate].
  destruct (create_assume_role_policy _ _ _ w6) as [[x|?] w7] eqn:E7; [|discriminate].
  destruct (attach_group_policy _ _ w7) as [[[]|?] w8] eqn:E8; [|discriminate].
  intros [= -> ->].
  pose proof (preserves_run _ _ _ _ _ (user_step_extends _) E2) as X2.
  pose proof (preserves_run _ _ _ _ _ (group_step_extends _) E3) as X3.
  pose proof (preserves_run _ _ _ _ _ (membership_step_extends _) E4) as X4.
  pose proof (preserves_run _ _ _ _ _ (role_step_extends _ _ _ _) E5) as X5.
  pose proof (preserves_run _ _ _ _ _ (extends_attach_role_policy _ _) E6) as X6.
  pose proof (preserves_run _ _ _ _ _ (create_assume_role_policy_extends _ _ _) E7) as X7.
  pose proof (preserves_run _ _ _ _ _ (extends_attach_group_policy _ _) E8) as X8.
  destruct (policy_step_ok _ _ _ _ _ _ _ _ Hacc E1) as (-> & Hf & Hp).
  apply user_step_ok in E2. apply group_step_ok in E3. apply role_step_ok in E5.
  apply attach_role_policy_ok in E6. apply create_assume_role_policy_ok in E7.
  assert (X18 : extends w1 w') by (by repeat (etrans; [eassumption|])).
  assert (X28 : extends w2 w') by (by repeat (etrans; [eassumption|])).
  assert (X38 : extends w3 w') by (by repeat (etrans; [eassumption|])).
  assert (X58 : extends w5 w') by (by repeat (etrans; [eassumption|])).
  assert (X78 : extends w7 w') by (by repeat (etrans; [eassumption|])).
  destruct Hf as (t & Ht & Hok).
  destruct X18 as (_ & Hf1 & Hp1 & _ & _ & _ & _ & Hx1).
  destruct X28 as (_ & _ & _ & _ & Hu2 & _).
  destruct X38 as (_ & _ & _ & _ & _ & Hg3 & _).
  destruct X58 as (_ & _ & _ & Ha5 & _ & _ & Hr5 & _).
  destruct X78 as (_ & _ & Hp7 & _).
  split; [exists t; by rewrite Hf1, Hx1|].
  repeat split; [set_solver..|by apply Hr5|set_solver].
Qed.

(** In a provisioned account, [configure_iam] returns the ARN of the role. *)
Lemma configure_iam_provisioned
    (policy_name policy_desc policy_template role_name role_desc account_id : string)
    (config : option pyval) (additional : option (list (string * pyval)))
    (w : world) (arn : string) :
  provisioned policy_name policy_template config role_name account_id arn w →
  ∃ w',
    configure_iam policy_name policy_desc policy_template role_name role_desc
      account_id config additional w = (Ok arn, w').
Proof.
  intros Hw. rewrite configure_iam_steps. unfold attach_steps.
  unfold mbind, mret, M_bind, M_ret.
  pose proof Hw as (Hf & Hp & _).
  destruct (policy_step_again policy_name policy_desc policy_template account_id
              config w Hf Hp) as (w1 & E1).
  rewrite E1.
  eapply provisioned_extends in Hw;
    [|eapply preserves_run, E1; apply policy_step_extends].
  destruct (user_step_returns role_name w1) as (w2 & E2). rewrite E2.
  eapply provisioned_extends in Hw;
    [|eapply preserves_run, E2; apply user_step_extends].
  destruct (group_step_returns role_name w2) as (w3 & E3). rewrite E3.
  eapply provisioned_extends in Hw;
    [|eapply preserves_run, E3; apply group_step_extends].
  destruct (membership_step_again role_name w3) as (w4 & E4); [apply Hw..|].
  rewrite E4.
  eapply provisioned_extends in Hw;
    [|eapply preserves_run, E4; apply membership_step_extends].
  destruct (role_step_again role_name role_desc account_id additional w4 arn)
    as (w5 & E5); [apply Hw|].
  rewrite E5.
  eapply provisioned_extends in Hw;
    [|eapply preserves_run, E5; apply role_step_extends].
  destruct (attach_role_policy_again role_name
              ("arn:aws:iam::" +:+ account_id +:+ ":policy" +:+ DATA_MESH_IAM_PATH
               +:+ policy_name) w5 arn) as (w6 & E6); [apply Hw..|].
  rewrite E6.
  eapply provisioned_extends in Hw;
    [|eapply preserves_run, E6; apply extends_attach_role_policy].
  destruct (create_assume_role_policy_returns account_id ("Assume" +:+ role_name)
              arn w6) as (x & w7 & E7).
  rewrite E7.
  eapply provisioned_extends in Hw;
    [|eapply preserves_run, E7; apply create_assume_role_policy_extends].
  destruct (attach_group_policy_again (role_name +:+ "Group")
              ("arn:aws:iam::" +:+ account_id +:+ ":policy" +:+ DATA_MESH_IAM_PATH
               +:+ policy_name) w7) as (w8 & E8); [apply Hw..|].
  rewrite E8. by eexists.
Qed.

(** C5, amended: when [account_id] is the account the client works in and
    a run of [configure_iam] returns a role ARN, a second run with the same
    arguments in the account the first run left returns the same ARN. *)
Theorem configure_iam_twice
    (policy_name policy_desc policy_template role_name role_desc account_id : string)
    (config : option pyval) (additional : option (list (string * pyval)))
    (w w1 : world) (arn : string) :
  account w = account_id →
  configure_iam policy_name policy_desc policy_template role_name role_desc
    account_id config additional w = (Ok arn, w1) →
  ∃ w2,
    configure_iam policy_name policy_desc policy_template role_name role_desc
      account_id config additional w1 = (Ok arn, w2).
Proof.
  intros Hacc Hfirst.
  eapply configure_iam_provisioned, configure_iam_provisions; eassumption.
Qed.

End twice.

(** ** The runs of the examples *)

(** C2 at the first run in account 111111111111 with role name
    DataMeshConsumer: the policy AssumeDataMeshConsumer is created, with the
    ARN of the new role as the [Resource] of its statement, but the policy
    attached to DataMeshConsumerGroup is the policy created from the
    template, and AssumeDataMeshConsumer is attached to nothing. *)
Theorem configure_iam_first_run_attaches_policy :
  first_run.1 = Ok "arn:aws:iam::111111111111:role/AwsDataMesh/DataMeshConsumer"
  ∧ PolicyArn <$> policies first_run.2 !! "AssumeDataMeshConsumer"
    = Some "arn:aws:iam::111111111111:policy/AwsDataMesh/AssumeDataMeshConsumer"
  ∧ PolicyDocument <$> policies first_run.2 !! "AssumeDataMeshConsumer"
    = Some (json_dumps
              (PDict [("Version", PStr "2012-10-17");
                      ("Statement",
                       PList [PDict [("Effect", PStr "Allow");
                                     ("Action", PStr "sts:AssumeRole");
                                     ("Resource",
                                      PStr ("arn:aws:iam::111111111111:role"
                                            +:+ "/AwsDataMesh/DataMeshConsumer"))]])]))
  ∧ GroupAttachedPolicies <$> groups first_run.2 !! "DataMeshConsumerGroup"
    = Some ["arn:aws:iam::111111111111:policy/AwsDataMesh/DataMeshConsumerPolicy"]
  ∧ RoleAttachedPolicies <$> roles first_run.2 !! "DataMeshConsumer"
    = Some ["arn:aws:iam::111111111111:policy/AwsDataMesh/DataMeshConsumerPolicy"]
  ∧ last (log first_run.2)
    = Some (AttachGroupPolicy "DataMeshConsumerGroup"
              "arn:aws:iam::111111111111:policy/AwsDataMesh/DataMeshConsumerPolicy",
            None).
Proof. repeat split; vm_compute; reflexivity. Qed.

(** C5, as it is stated, fails for an account id that is not the account of
    the client: the first run returns the ARN the service gave to the role,
    the second run rebuilds the policy ARN from the foreign account id and
    the attachment to the role is refused. *)
Lemma configure_iam_twice_foreign_account :
  account fresh_account ≠ "222222222222"
  ∧ first_run_foreign.1
    = Ok "arn:aws:iam::111111111111:role/AwsDataMesh/DataMeshConsumer"
  ∧ second_run_foreign.1 = Raise NoSuchEntityException
  ∧ last (log second_run_foreign.2)
    = Some (AttachRolePolicy "DataMeshConsumer"
              "arn:aws:iam::222222222222:policy/AwsDataMesh/DataMeshConsumerPolicy",
            Some NoSuchEntityException).
Proof. split; [discriminate|]. repeat split; vm_compute; reflexivity. Qed.

(** The second run in account 111111111111 after the first one there. *)
Lemma configure_iam_twice_witness :
  ∃ w2,
    configure_iam (K := example_constants) "DataMeshConsumerPolicy"
      "IAM Policy enabling Accounts to Assume the DataMeshAdminConsumer Role"
      "consumer_policy.pystache" "DataMeshConsumer"
      "Role to be used to update S3 Bucket Policies for access by the Data Mesh Account"
      "111111111111" None None first_run.2
    = (Ok "arn:aws:iam::111111111111:role/AwsDataMesh/DataMeshConsumer", w2).
Proof.
  apply (configure_iam_twice (K := example_constants) "DataMeshConsumerPolicy"
           "IAM Policy enabling Accounts to Assume the DataMeshAdminConsumer Role"
           "consumer_policy.pystache" "DataMeshConsumer"
           "Role to be used to update S3 Bucket Policies for access by the Data Mesh Account"
           "111111111111" None None fresh_account first_run.2
           "arn:aws:iam::111111111111:role/AwsDataMesh/DataMeshConsumer").
  - reflexivity.
  - vm_compute. reflexivity.
Defined.



(** C9, as it is stated, fails when the additional principals have an [AWS]
    key: the entry replaces the list of the user and the root. *)
Lemma configure_iam_additional_AWS_replaces_trust :
  roles fresh_account !! "DataMeshConsumer" = None
  ∧ AssumeRolePolicyDocument <$> roles run_with_additional_AWS.2 !! "DataMeshConsumer"
    = Some (PDict [("Version", PStr "2012-10-17");
                   ("Statement",
                    PList [PDict [("Effect", PStr "Allow");
                                  ("Action", PStr "sts:AssumeRole");
                                  ("Principal", PDict [("AWS", PStr "*")])]])])
  ∧ trusted_principals
      (PDict [("Version", PStr "2012-10-17");
              ("Statement",
               PList [PDict [("Effect", PStr "Allow");
                             ("Action", PStr "sts:AssumeRole");
                             ("Principal", PDict [("AWS", PStr "*")])]])])
    ≠ Ok (PList [PStr "arn:aws:iam::111111111111:user/AwsDataMesh/DataMeshConsumer";
                 PStr "arn:aws:iam::111111111111:root"]).
Proof.
  split; [reflexivity|]. split; [vm_compute; reflexivity|]. discriminate.
Qed.

(** The role created by the first run in account 111111111111. *)
Lemma configure_iam_created_role_trust_witness :
  ∃ policy_doc,
    "/AwsDataMesh/" = "/AwsDataMesh/" ∧ "DataMeshConsumer" = "DataMeshConsumer"
    ∧ json_dumps
        (PDict [("Version", PStr "2012-10-17");
                ("Statement",
                 PList [PDict [("Effect", PStr "Allow");
                               ("Action", PStr "sts:AssumeRole");
                               ("Principal",
                                PDict [("AWS",
                                        PList [PStr "arn:aws:iam::111111111111:user/AwsDataMesh/DataMeshConsumer";
                                               PStr "arn:aws:iam::111111111111:root"])])]])])
      = json_dumps policy_doc
    ∧ roles fresh_account !! "DataMeshConsumer" = None
    ∧ AssumeRolePolicyDocument <$> roles first_run.2 !! "DataMeshConsumer"
      = Some policy_doc
    ∧ trusted_principals policy_doc
      = Ok (PList [PStr ("arn:aws:iam::" +:+ "111111111111" +:+ ":user"
                         +:+ "/AwsDataMesh/" +:+ "DataMeshConsumer");
                   PStr ("arn:aws:iam::" +:+ "111111111111" +:+ ":root")]).
Proof.
  apply (configure_iam_created_role_trust (K := example_constants)
           "DataMeshConsumerPolicy"
           "IAM Policy enabling Accounts to Assume the DataMeshAdminConsumer Role"
           "consumer_policy.pystache" "DataMeshConsumer"
           "Role to be used to update S3 Bucket Policies for access by the Data Mesh Account"
           "111111111111" None None fresh_account).
  - intros items Hitems. discriminate Hitems.
  - apply list_elem_of_In. vm_compute. tauto.
Defined.

(** ** configure_iam: what it leaves alone and what it wires *)

#[export] Instance roles_grow_refl : Reflexive roles_grow.
Proof. intros w n r Hn. by rewrite Hn. Qed.

#[export] Instance roles_grow_trans : Transitive roles_grow.
Proof.
  intros w1 w2 w3 H1 H2 n r Hn. specialize (H1 n r Hn).
  destruct (roles w2 !! n) as [r2|] eqn:Hr2; [|done].
  rewrite (H2 n r2 Hr2). exact H1.
Qed.

Lemma roles_kept_grow {A} (m : M world A) :
  preserves roles_kept m → preserves roles_grow m.
Proof. intros Hm w n r Hn. rewrite (Hm w n). by rewrite Hn. Qed.

Lemma roles_grow_create_role p n d desc tags :
  preserves roles_grow (create_role p n d desc tags).
Proof.
  intros w. unfold create_role, answer, refuse. repeat case_match; simpl; try reflexivity;
  intros n' r' Hn'; simpl;
    first [by rewrite Hn' | rewrite lookup_insert_ne; [by rewrite Hn'|congruence]].
Qed.

#[export] Instance kept_refl {X} (f : world → X) : Reflexive (kept f).
Proof. by intros w. Qed.

#[export] Instance kept_trans {X} (f : world → X) : Transitive (kept f).
Proof. intros w1 w2 w3 H1 H2. unfold kept in *. congruence. Qed.

Ltac keeps := intros ?; unfold_iam; repeat case_match; reflexivity.

Lemma kept_groups_get_role n : preserves (kept groups) (get_role n).
Proof. keeps. Qed.
Lemma kept_groups_create_role p n d desc tags :
  preserves (kept groups) (create_role p n d desc tags).
Proof. keeps. Qed.
Lemma kept_groups_create_policy n p d desc tags :
  preserves (kept groups) (create_policy n p d desc tags).
Proof. keeps. Qed.
Lemma kept_groups_attach_role_policy n a :
  preserves (kept groups) (attach_role_policy n a).
Proof. keeps. Qed.
Lemma kept_roles_create_policy n p d desc tags :
  preserves (kept roles) (create_policy n p d desc tags).
Proof. keeps. Qed.
Lemma kept_roles_attach_group_policy n a :
  preserves (kept roles) (attach_group_policy n a).
Proof. keeps. Qed.

Section more_on_configure_iam.
Context {K : Constants}.

Lemma configure_iam_roles_grow pn pd pt rn rd acc cfg additional :
  preserves roles_grow (configure_iam pn pd pt rn rd acc cfg additional).
Proof.
  unfold configure_iam, create_assume_role_policy, generate_policy.
  preserves_steps; first [apply roles_grow_create_role | apply roles_kept_grow];
    eauto with iam.
Qed.

Lemma configure_iam_never_updates pn pd pt rn rd acc cfg additional :
  preserves (only_events (fun ev => is_update ev.1 = false))
    (configure_iam pn pd pt rn rd acc cfg additional).
Proof.
  unfold configure_iam, create_assume_role_policy, generate_policy.
  preserves_steps; eauto with iam.
Qed.

(** X1: when the policy template is not among the resource files,
    [configure_iam] ends with the [FileNotFoundError] of [open] before any
    request is sent; the account is as it was. *)
Theorem configure_iam_missing_template
    (policy_name policy_desc policy_template role_name role_desc account_id : string)
    (config : option pyval) (additional : option (list (string * pyval)))
    (w : world) :
  resource_files w !! policy_template = None →
  configure_iam policy_name policy_desc policy_template role_name role_desc
    account_id config additional w
  = (Raise (FileNotFoundError policy_template), w).
Proof.
  intros Hfile. rewrite configure_iam_steps.
  unfold policy_step, generate_policy, read_resource. unfold_monad.
  by rewrite Hfile.
Qed.

(** X2: [configure_iam] never changes a role that exists: whatever its
    arguments and however the run ends, a role of the account keeps its ARN
    and its trust document, and no [UpdateAssumeRolePolicy] request is
    sent. *)
Theorem configure_iam_keeps_existing_roles
    (policy_name policy_desc policy_template role_name role_desc account_id : string)
    (config : option pyval) (additional : option (list (string * pyval)))
    (w : world) (n : string) (r : Role) :
  roles w !! n = Some r →
  let run := configure_iam policy_name policy_desc policy_template role_name
               role_desc account_id config additional w in
  RoleArn <$> roles run.2 !! n = Some (RoleArn r)
  ∧ AssumeRolePolicyDocument <$> roles run.2 !! n = Some (AssumeRolePolicyDocument r)
  ∧ Forall (fun ev => is_update ev.1 = false) (new_events w run.2).
Proof.
  intros Hn run. subst run.
  pose proof (configure_iam_roles_grow policy_name policy_desc policy_template
                role_name role_desc account_id config additional w n r Hn) as Hgrow.
  pose proof (configure_iam_never_updates policy_name policy_desc policy_template
                role_name role_desc account_id config additional w) as Hev.
  apply only_events_new in Hev.
  set (w' := (configure_iam _ _ _ _ _ _ _ _ w).2) in *.
  destruct (roles w' !! n) as [r'|]; [|done].
  unfold role_identity in Hgrow. simpl in *. by injection Hgrow as -> ->.
Qed.

End more_on_configure_iam.

Lemma configure_iam_missing_template_witness :
  configure_iam (K := example_constants) "DataMeshConsumerPolicy" ""
    "consumer_policy.pystache" "DataMeshConsumer" "" "111111111111" None None
    account_without_templates
  = (Raise (FileNotFoundError "consumer_policy.pystache"), account_without_templates).
Proof.
  apply (configure_iam_missing_template (K := example_constants)). reflexivity.
Defined.

Lemma configure_iam_keeps_existing_roles_witness :
  RoleArn <$> roles run_with_role_taken.2 !! "DataMeshConsumer"
  = Some "arn:aws:iam::111111111111:role/DataMeshConsumer"
  ∧ AssumeRolePolicyDocument <$> roles run_with_role_taken.2 !! "DataMeshConsumer"
    = Some (AssumeRolePolicyDocument consumer_role_at_root)
  ∧ Forall (fun ev => is_update ev.1 = false)
      (new_events account_with_consumer_role run_with_role_taken.2).
Proof.
  apply (configure_iam_keeps_existing_roles (K := example_constants)
           "DataMeshConsumerPolicy"
           "IAM Policy enabling Accounts to Assume the DataMeshAdminConsumer Role"
           "consumer_policy.pystache" "DataMeshConsumer"
           "Role to be used to update S3 Bucket Policies for access by the Data Mesh Account"
           "111111111111" None None account_with_consumer_role "DataMeshConsumer"
           consumer_role_at_root).
  reflexivity.
Defined.

Lemma add_once_elem (x : string) (l : list string) : x ∈ add_once x l.
Proof. unfold add_once. case_bool_decide; [done|]. set_solver. Qed.

Lemma add_once_incl (x y : string) (l : list string) : y ∈ l → y ∈ add_once x l.
Proof. unfold add_once. case_bool_decide; [done|]. set_solver. Qed.

Lemma attach_role_policy_attached rn pa (w w1 : world) (u : unit) :
  attach_role_policy rn pa w = (Ok u, w1) →
  ∃ r0 r,
    roles w !! rn = Some r0 ∧ roles w1 !! rn = Some r
    ∧ RoleArn r = RoleArn r0
    ∧ RoleAttachedPolicies r = add_once pa (RoleAttachedPolicies r0)
    ∧ groups w1 = groups w.
Proof.
  unfold attach_role_policy, answer, refuse.
  destruct (roles w !! rn) as [r0|] eqn:Hr; [|discriminate].
  case_bool_decide; [|discriminate]. intros ?; simplify_eq.
  exists r0. eexists. split; [done|]. simpl. rewrite lookup_insert_eq.
  by repeat split.
Qed.

Lemma attach_group_policy_attached g pa (w w1 : world) (u : unit) :
  attach_group_policy g pa w = (Ok u, w1) →
  ∃ g0 g1,
    groups w !! g = Some g0 ∧ groups w1 !! g = Some g1
    ∧ GroupUsers g1 = GroupUsers g0
    ∧ GroupAttachedPolicies g1 = add_once pa (GroupAttachedPolicies g0)
    ∧ roles w1 = roles w.
Proof.
  unfold attach_group_policy, answer, refuse.
  destruct (groups w !! g) as [g0|] eqn:Hg; [|discriminate].
  case_bool_decide; [|discriminate]. intros ?; simplify_eq.
  exists g0. eexists. split; [done|]. simpl. rewrite lookup_insert_eq.
  by repeat split.
Qed.

Section wiring.
Context {K : Constants}.

Lemma membership_step_member rn (w w1 : world) (u : unit) :
  membership_step rn w = (Ok u, w1) →
  ∃ g, groups w1 !! (rn +:+ "Group") = Some g ∧ rn ∈ GroupUsers g.
Proof.
  unfold membership_step, add_user_to_group. unfold_monad.
  destruct (groups w !! (rn +:+ "Group")) as [g|]; [|discriminate].
  destruct (users w !! rn); [|discriminate]. intros ?; simplify_eq. simpl.
  eexists. rewrite lookup_insert_eq. split; [done|]. apply add_once_elem.
Qed.

Lemma role_step_keeps_groups rn rd acc additional :
  preserves (kept groups) (role_step rn rd acc additional).
Proof.
  unfold role_step. preserves_steps;
    auto using kept_groups_create_role, kept_groups_get_role.
Qed.

Lemma create_assume_role_policy_keeps_groups acc name ra :
  preserves (kept groups) (create_assume_role_policy acc name ra).
Proof.
  unfold create_assume_role_policy. preserves_steps;
    auto using kept_groups_create_policy.
Qed.

Lemma create_assume_role_policy_keeps_roles acc name ra :
  preserves (kept roles) (create_assume_role_policy acc name ra).
Proof.
  unfold create_assume_role_policy. preserves_steps;
    auto using kept_roles_create_policy.
Qed.

Lemma configure_iam_wired
    (policy_name policy_desc policy_template role_name role_desc account_id : string)
    (config : option pyval) (additional : option (list (string * pyval)))
    (w w' : world) (arn : string) :
  account w = account_id →
  configure_iam policy_name policy_desc policy_template role_name role_desc
    account_id config additional w = (Ok arn, w') →
  ∃ g r,
    groups w' !! (role_name +:+ "Group") = Some g
    ∧ role_name ∈ GroupUsers g
    ∧ ("arn:aws:iam::" +:+ account_id +:+ ":policy" +:+ DATA_MESH_IAM_PATH
       +:+ policy_name) ∈ GroupAttachedPolicies g
    ∧ roles w' !! role_name = Some r
    ∧ RoleArn r = arn
    ∧ ("arn:aws:iam::" +:+ account_id +:+ ":policy" +:+ DATA_MESH_IAM_PATH
       +:+ policy_name) ∈ RoleAttachedPolicies r.
Proof.
  intros Hacc. rewrite configure_iam_steps. unfold attach_steps.
  unfold mbind, mret, M_bind, M_ret.
  destruct (policy_step _ _ _ _ _ w) as [[pa|?] w1] eqn:E1; [|discriminate].
  destruct (user_step _ w1) as [[[]|?] w2] eqn:E2; [|discriminate].
  destruct (group_step _ w2) as [[[]|?] w3] eqn:E3; [|discriminate].
  destruct (membership_step _ w3) as [[[]|?] w4] eqn:E4; [|discriminate].
  destruct (role_step _ _ _ _ w4) as [[ra|?] w5] eqn:E5; [|discriminate].
  destruct (attach_role_policy _ _ w5) as [[[]|?] w6] eqn:E6; [|discriminate].
  destruct (create_assume_role_policy _ _ _ w6) as [[x|?] w7] eqn:E7; [|discriminate].
  destruct (attach_group_policy _ _ w7) as [[[]|?] w8] eqn:E8; [|discriminate].
  intros [= -> ->].
  destruct (policy_step_ok _ _ _ _ _ _ _ _ Hacc E1) as (-> & _ & _).
  destruct (membership_step_member _ _ _ _ E4) as (g4 & Hg4 & Hmember).
  pose proof (preserves_run _ _ _ _ _ (role_step_keeps_groups _ _ _ _) E5) as G5.
  pose proof (role_step_ok _ _ _ _ _ _ _ E5) as Hra.
  destruct (attach_role_policy_attached _ _ _ _ _ E6)
    as (r5 & r6 & Hr5 & Hr6 & Harn & Hattached & G6).
  pose proof (preserves_run _ _ _ _ _
                (create_assume_role_policy_keeps_groups _ _ _) E7) as G7.
  pose proof (preserves_run _ _ _ _ _
                (create_assume_role_policy_keeps_roles _ _ _) E7) as R7.
  destruct (attach_group_policy_attached _ _ _ _ _ E8)
    as (g7 & g8 & Hg7 & Hg8 & Husers & Hgattached & R8).
  unfold kept in *.
  rewrite G7, G6, G5, Hg4 in Hg7. injection Hg7 as <-.
  rewrite Hr5 in Hra. simpl in Hra. injection Hra as <-.
  exists g8, r6. split; [done|]. split; [by rewrite Husers|].
  split; [rewrite Hgattached; apply add_once_elem|].
  split; [by rewrite R8, R7|]. split; [done|].
  rewrite Hattached. apply add_once_elem.
Qed.

(** X3: when [configure_iam] returns in the client's own account, the user
    [role_name] is a member of the group [role_name ++ "Group"], the role has
    the ARN that is returned, and the policy made from the template is
    attached to the role and to the group. *)
Theorem configure_iam_wires
    (policy_name policy_desc policy_template role_name role_desc account_id : string)
    (config : option pyval) (additional : option (list (string * pyval)))
    (w w' : world) (arn : string) :
  account w = account_id →
  configure_iam policy_name policy_desc policy_template role_name role_desc
    account_id config additional w = (Ok arn, w') →
  ∃ g r,
    groups w' !! (role_name +:+ "Group") = Some g
    ∧ role_name ∈ GroupUsers g
    ∧ ("arn:aws:iam::" +:+ account_id +:+ ":policy" +:+ DATA_MESH_IAM_PATH
       +:+ policy_name) ∈ GroupAttachedPolicies g
    ∧ roles w' !! role_name = Some r
    ∧ RoleArn r = arn
    ∧ ("arn:aws:iam::" +:+ account_id +:+ ":policy" +:+ DATA_MESH_IAM_PATH
       +:+ policy_name) ∈ RoleAttachedPolicies r.
Proof. apply configure_iam_wired. Qed.

End wiring.

Lemma configure_iam_wires_witness :
  ∃ g r,
    groups first_run.2 !! ("DataMeshConsumer" +:+ "Group") = Some g
    ∧ "DataMeshConsumer" ∈ GroupUsers g
    ∧ ("arn:aws:iam::" +:+ "111111111111" +:+ ":policy" +:+ "/AwsDataMesh/"
       +:+ "DataMeshConsumerPolicy") ∈ GroupAttachedPolicies g
    ∧ roles first_run.2 !! "DataMeshConsumer" = Some r
    ∧ RoleArn r = "arn:aws:iam::111111111111:role/AwsDataMesh/DataMeshConsumer"
    ∧ ("arn:aws:iam::" +:+ "111111111111" +:+ ":policy" +:+ "/AwsDataMesh/"
       +:+ "DataMeshConsumerPolicy") ∈ RoleAttachedPolicies r.
Proof.
  apply (configure_iam_wires (K := example_constants) "DataMeshConsumerPolicy"
           "IAM Policy enabling Accounts to Assume the DataMeshAdminConsumer Role"
           "consumer_policy.pystache" "DataMeshConsumer"
           "Role to be used to update S3 Bucket Policies for access by the Data Mesh Account"
           "111111111111" None None fresh_account first_run.2).
  - reflexivity.
  - vm_compute. reflexivity.
Defined.


Section first_time.
Context {K : Constants}.


(** X20: when the template renders to a text that the service does not take
    for a policy document, [configure_iam] ends with the
    [MalformedPolicyDocument] error of the first [create_policy], which the
    handler for conflicts does not catch; this one refused request is all
    that is sent. *)
Theorem configure_iam_malformed_template
    (policy_name policy_desc policy_template role_name role_desc account_id : string)
    (config : option pyval) (additional : option (list (string * pyval)))
    (w : world) (template : string) :
  resource_files w !! policy_template = Some template →
  policy_grammar w (pystache_render template config) = false →
  configure_iam policy_name policy_desc policy_template role_name role_desc
    account_id config additional w
  = (Raise (ClientError "MalformedPolicyDocument"),
     record
       (CreatePolicy policy_name DATA_MESH_IAM_PATH
          (Rendered (pystache_render template config)))
       (Some (ClientError "MalformedPolicyDocument")) w).
Proof.
  intros Hfile Hgrammar. rewrite configure_iam_steps.
  unfold policy_step, generate_policy, read_resource, create_policy. unfold_monad.
  rewrite Hfile. simpl. by rewrite Hgrammar.
Qed.

End first_time.

(** ** create_assume_role_doc in closed form *)

Lemma dict_set_twice (k : string) (v v' : pyval) (kv : list (string * pyval)) :
  dict_set k v' (dict_set k v kv) = dict_set k v' kv.
Proof.
  induction kv as [|[k0 v0] kv IH]; simpl.
  - by rewrite String.eqb_refl.
  - destruct (String.eqb k0 k) eqn:Hk; simpl.
    + by rewrite String.eqb_refl.
    + by rewrite Hk, IH.
Qed.

Lemma dict_set_same (k : string) (v : pyval) (kv : list (string * pyval)) :
  dict_get k kv = Some v → dict_set k v kv = kv.
Proof.
  induction kv as [|[k0 v0] kv IH]; [done|]. simpl.
  destruct (String.eqb k0 k) eqn:Hk.
  - apply String.eqb_eq in Hk as ->. by intros [= ->].
  - intros Hget. by rewrite IH.
Qed.

Lemma merge_principals_fold (items : list (string * pyval)) :
  ∀ (pr st : list (string * pyval)),
    dict_get "Principal" st = Some (PDict pr) →
    merge_principals items
      (PDict [("Version", PStr "2012-10-17"); ("Statement", PList [PDict st])])
    = Ok (PDict [("Version", PStr "2012-10-17");
                 ("Statement",
                  PList [PDict (dict_set "Principal"
                                  (PDict (fold_left
                                            (fun principal '(k, v) =>
                                               dict_set k v principal) items pr))
                                  st)])]).
Proof.
  induction items as [|[k v] items IH]; intros pr st Hpr.
  - simpl. by rewrite dict_set_same.
  - simpl. unfold set_in_principal, statement0. unfold_monad. simpl.
    rewrite Hpr. simpl. rewrite (IH (dict_set k v pr)); [|apply dict_get_set_eq].
    by rewrite dict_set_twice.
Qed.

Lemma create_assume_role_doc_closed_form (principals : list string)
    (resource : option string) (additional : option (list (string * pyval))) :
  create_assume_role_doc (Some principals) resource additional
  = Ok (PDict [("Version", PStr "2012-10-17");
               ("Statement",
                PList [PDict ([("Effect", PStr "Allow");
                               ("Action", PStr "sts:AssumeRole");
                               ("Principal",
                                PDict (merged_principals principals additional))]
                              ++ match resource with
                                 | Some r => [("Resource", PStr r)]
                                 | None => []
                                 end)])]).
Proof.
  unfold create_assume_role_doc, merged_principals. unfold_monad. simpl.
  destruct additional as [items|]; simpl.
  - rewrite (merge_principals_fold items [("AWS", PList (PStr <$> principals))]);
      [|reflexivity].
    simpl. by destruct resource.
  - by destruct resource.
Qed.

(** X5: with AWS principals, [create_assume_role_doc] raises nothing, for any
    resource and any additional principals: the document has one statement;
    its [Principal] holds the AWS principals and then every additional
    principal, assigned key after key, so that an additional [AWS] entry
    replaces the list; [Resource] is there exactly when a resource is
    given. *)
Theorem create_assume_role_doc_with_principals (principals : list string)
    (resource : option string) (additional : option (list (string * pyval))) :
  create_assume_role_doc (Some principals) resource additional
  = Ok (PDict [("Version", PStr "2012-10-17");
               ("Statement",
                PList [PDict ([("Effect", PStr "Allow");
                               ("Action", PStr "sts:AssumeRole");
                               ("Principal",
                                PDict (merged_principals principals additional))]
                              ++ match resource with
                                 | Some r => [("Resource", PStr r)]
                                 | None => []
                                 end)])]).
Proof. apply create_assume_role_doc_closed_form. Qed.

(** X6: whatever its arguments, a document that [create_assume_role_doc]
    returns has version 2012-10-17 and exactly one statement, which allows
    [sts:AssumeRole]. *)
Theorem create_assume_role_doc_single_statement
    (aws_principals : option (list string)) (resource : option string)
    (additional : option (list (string * pyval))) (document : pyval) :
  create_assume_role_doc aws_principals resource additional = Ok document →
  ∃ statement,
    py_get document "Version" = Ok (PStr "2012-10-17")
    ∧ py_get document "Statement" = Ok (PList [statement])
    ∧ py_get statement "Effect" = Ok (PStr "Allow")
    ∧ py_get statement "Action" = Ok (PStr "sts:AssumeRole").
Proof.
  destruct aws_principals as [principals|].
  - rewrite create_assume_role_doc_closed_form. intros [= <-].
    eexists. by repeat split.
  - destruct additional as [[|[k v] items]|]; [| |];
      [destruct resource; intros [= <-]; eexists; by repeat split
      |unfold create_assume_role_doc; unfold_monad; simpl; discriminate
      |destruct resource; intros [= <-]; eexists; by repeat split].
Qed.

Lemma create_assume_role_doc_single_statement_witness :
  ∃ statement,
    py_get
      (PDict [("Version", PStr "2012-10-17");
              ("Statement",
               PList [PDict [("Effect", PStr "Allow");
                             ("Action", PStr "sts:AssumeRole");
                             ("Resource", PStr "arn:aws:iam::111111111111:role/R")]])])
      "Version" = Ok (PStr "2012-10-17")
    ∧ py_get
        (PDict [("Version", PStr "2012-10-17");
                ("Statement",
                 PList [PDict [("Effect", PStr "Allow");
                               ("Action", PStr "sts:AssumeRole");
                               ("Resource", PStr "arn:aws:iam::111111111111:role/R")]])])
        "Statement" = Ok (PList [statement])
    ∧ py_get statement "Effect" = Ok (PStr "Allow")
    ∧ py_get statement "Action" = Ok (PStr "sts:AssumeRole").
Proof.
  apply (create_assume_role_doc_single_statement None
           (Some "arn:aws:iam::111111111111:role/R") None).
  reflexivity.
Defined.

(** ** create_assume_role_policy *)

Section assume_role_policy.
Context {K : Constants}.

(** X7: in the client's own account, [create_assume_role_policy] returns the
    ARN of [policy_name] under the data mesh path whether it creates the
    policy or finds the name taken, and the policy exists afterwards; when
    the name was free, the new policy allows [sts:AssumeRole] on [role_arn]
    and can be attached. *)
Theorem create_assume_role_policy_resolves (account_id policy_name role_arn : string)
    (w : world) :
  account w = account_id →
  let run := create_assume_role_policy account_id policy_name role_arn w in
  run.1 = Ok ("arn:aws:iam::" +:+ account_id +:+ ":policy" +:+ DATA_MESH_IAM_PATH
              +:+ policy_name)
  ∧ policy_name ∈ dom (policies run.2)
  ∧ (policies w !! policy_name = None →
     PolicyDocument <$> policies run.2 !! policy_name
     = Some (json_dumps
               (PDict [("Version", PStr "2012-10-17");
                       ("Statement",
                        PList [PDict [("Effect", PStr "Allow");
                                      ("Action", PStr "sts:AssumeRole");
                                      ("Resource", PStr role_arn)]])]))
     ∧ ("arn:aws:iam::" +:+ account_id +:+ ":policy" +:+ DATA_MESH_IAM_PATH
        +:+ policy_name) ∈ attachable run.2).
Proof.
  intros Hacc run. subst run account_id.
  unfold create_assume_role_policy, create_policy.
  rewrite create_assume_role_doc_resource. unfold_monad. simpl.
  destruct (policies w !! policy_name) as [p|] eqn:Hp; simpl.
  - split; [done|]. split; [|done]. apply elem_of_dom. by eexists.
  - split; [done|]. split; [apply elem_of_dom; by rewrite lookup_insert_eq|].
    intros _. rewrite lookup_insert_eq. split; [done|].
    unfold service_arn. set_solver.
Qed.

(** X8: a policy that exists under the name is left as it is, whatever role
    it was written for: [create_assume_role_policy] sends one [CreatePolicy]
    request, which is refused, and changes nothing in the account. *)
Theorem create_assume_role_policy_keeps_existing
    (account_id policy_name role_arn : string) (w : world) :
  is_Some (policies w !! policy_name) →
  let run := create_assume_role_policy account_id policy_name role_arn w in
  policies run.2 = policies w ∧ attachable run.2 = attachable w
  ∧ roles run.2 = roles w ∧ groups run.2 = groups w ∧ users run.2 = users w
  ∧ new_events w run.2
    = [(CreatePolicy policy_name DATA_MESH_IAM_PATH
          (json_dumps
             (PDict [("Version", PStr "2012-10-17");
                     ("Statement",
                      PList [PDict [("Effect", PStr "Allow");
                                    ("Action", PStr "sts:AssumeRole");
                                    ("Resource", PStr role_arn)]])])),
        Some EntityAlreadyExistsException)].
Proof.
  intros Hp run. subst run.
  rewrite create_assume_role_policy_conflict by done. simpl.
  by rewrite new_events_record.
Qed.

End assume_role_policy.

(** ** add_aws_trust_to_role: frame, errors and repetition *)

#[export] Instance trust_only_refl rn : Reflexive (trust_only rn).
Proof. by intros w. Qed.

#[export] Instance trust_only_trans rn : Transitive (trust_only rn).
Proof.
  intros w1 w2 w3 (Hp & Ha & Hu & Hg & Ho & Hr & Hx) (Hp' & Ha' & Hu' & Hg' & Ho' & Hr' & Hx').
  repeat split; try congruence. intros n Hn. by rewrite Ho', Ho.
Qed.

Lemma trust_only_get_role rn n : preserves (trust_only rn) (get_role n).
Proof. intros w. unfold get_role, answer, refuse. by case_match. Qed.

Lemma trust_only_update rn d : preserves (trust_only rn) (update_assume_role_policy rn d).
Proof.
  intros w. unfold update_assume_role_policy, answer, refuse.
  destruct (roles w !! rn) as [r|] eqn:Hr; [|done]. destruct d; [done|].
  simpl. repeat split; simpl; rewrite ?lookup_insert_eq, ?Hr; try done.
  intros n Hn. by rewrite lookup_insert_ne.
Qed.

(** X9: whatever happens, [add_aws_trust_to_role] changes nothing but the
    trust document of the role [role_name]: policies, users, groups, the
    other roles, and the ARN and the attached policies of the role itself
    are as before. *)
Theorem add_aws_trust_to_role_frame (account_id role_name : string) (w : world) :
  trust_only role_name w (add_aws_trust_to_role account_id role_name w).2.
Proof.
  revert w. change (preserves (trust_only role_name)
                      (add_aws_trust_to_role account_id role_name)).
  unfold add_aws_trust_to_role, validate_correct_account.
  preserves_steps; auto using trust_only_get_role, trust_only_update.
  match goal with |- context [negb ?b] => destruct b end; simpl; preserves_steps.
Qed.

(** X10: on a role that does not exist, the result of
    [validate_correct_account] is dropped: the lookup is sent a second time
    and its [NoSuchEntityException] comes out; nothing is written. *)
Theorem add_aws_trust_to_role_missing_role (account_id role_name : string) (w : world) :
  roles w !! role_name = None →
  add_aws_trust_to_role account_id role_name w
  = (Raise NoSuchEntityException,
     record (GetRole role_name) (Some NoSuchEntityException)
       (record (GetRole role_name) (Some NoSuchEntityException) w)).
Proof.
  intros Hrole. unfold add_aws_trust_to_role. unfold_monad.
  rewrite validate_correct_account_run, Hrole.
  unfold get_role. unfold_monad. simpl. by rewrite Hrole.
Qed.

Lemma add_aws_trust_to_role_after (account_id role_name : string) (w : world)
    (r : Role) (l : list pyval) :
  roles w !! role_name = Some r →
  trusted_principals (AssumeRolePolicyDocument r) = Ok (PList l) →
  ∃ w' r' l',
    add_aws_trust_to_role account_id role_name w = (Ok (), w')
    ∧ roles w' !! role_name = Some r'
    ∧ trusted_principals (AssumeRolePolicyDocument r') = Ok (PList l')
    ∧ PStr account_id ∈ l'
    ∧ (PStr account_id ∈ l → AssumeRolePolicyDocument r' = AssumeRolePolicyDocument r).
Proof.
  intros Hrole Htrust.
  destruct (trusted_principals_shape _ _ Htrust)
    as (kv & st & rest & pr & Hdoc & Hst & Hpr & Haws).
  unfold add_aws_trust_to_role. unfold_monad.
  rewrite validate_correct_account_run, Hrole.
  unfold get_role, update_assume_role_policy. unfold_monad. simpl.
  rewrite Hrole. simpl. rewrite Hdoc. unfold statement0. unfold_monad. simpl.
  rewrite Hst. simpl. rewrite Hpr. simpl. rewrite Haws. simpl.
  destruct (existsb (str_eq_py account_id) l) eqn:Hin; simpl; rewrite Hrole; simpl.
  - apply existsb_str_eq_py in Hin.
    eexists _, _, l. split; [reflexivity|]. simpl. rewrite lookup_insert_eq.
    split; [reflexivity|]. simpl. split; [by rewrite <- Hdoc|]. by split.
  - eexists _, _, (l ++ [PStr account_id]). split; [reflexivity|]. simpl.
    rewrite lookup_insert_eq. split; [reflexivity|]. simpl.
    split; [apply trusted_principals_written|]. split; [set_solver|].
    intros Hyes. apply existsb_str_eq_py in Hyes. congruence.
Qed.

(** X11: on a role whose trusted AWS principals are a list,
    [add_aws_trust_to_role] can be repeated: both calls return, and the
    second leaves the trust document as the first wrote it. *)
Theorem add_aws_trust_to_role_twice (account_id role_name : string) (w : world)
    (r : Role) (l : list pyval) :
  roles w !! role_name = Some r →
  trusted_principals (AssumeRolePolicyDocument r) = Ok (PList l) →
  ∃ w1 w2,
    add_aws_trust_to_role account_id role_name w = (Ok (), w1)
    ∧ add_aws_trust_to_role account_id role_name w1 = (Ok (), w2)
    ∧ AssumeRolePolicyDocument <$> roles w2 !! role_name
      = AssumeRolePolicyDocument <$> roles w1 !! role_name.
Proof.
  intros Hrole Htrust.
  destruct (add_aws_trust_to_role_after account_id role_name w r l Hrole Htrust)
    as (w1 & r1 & l1 & Hrun1 & Hr1 & Ht1 & Hin1 & _).
  destruct (add_aws_trust_to_role_after account_id role_name w1 r1 l1 Hr1 Ht1)
    as (w2 & r2 & l2 & Hrun2 & Hr2 & _ & _ & Hsame).
  exists w1, w2. split; [done|]. split; [done|].
  rewrite Hr2, Hr1. simpl. by rewrite Hsame.
Qed.

(** X12: on a trust document that names its one AWS principal as a string,
    [account_id not in trusted_entities] is a substring test: when the
    account id occurs in the string, the document is written back unchanged;
    when it does not, [append] ends the call with [AttributeError] after the
    two lookups and before anything is written. *)
Theorem add_aws_trust_to_role_single_principal (account_id role_name : string)
    (w : world) (r : Role) (s : string) :
  roles w !! role_name = Some r →
  trusted_principals (AssumeRolePolicyDocument r) = Ok (PStr s) →
  add_aws_trust_to_role account_id role_name w
  = if str_contains account_id s
    then (Ok (),
          record (UpdateAssumeRolePolicy role_name
                    (json_dumps (AssumeRolePolicyDocument r))) None
            (set_roles <[role_name := r]>
               (record (GetRole role_name) None (record (GetRole role_name) None w))))
    else (Raise AttributeError,
          record (GetRole role_name) None (record (GetRole role_name) None w)).
Proof.
  intros Hrole Htrust.
  destruct (trusted_principals_shape _ _ Htrust)
    as (kv & st & rest & pr & Hdoc & Hst & Hpr & Haws).
  unfold add_aws_trust_to_role. unfold_monad.
  rewrite validate_correct_account_run, Hrole.
  unfold get_role, update_assume_role_policy. unfold_monad. simpl.
  rewrite Hrole. simpl. rewrite Hdoc. unfold statement0. unfold_monad. simpl.
  rewrite Hst. simpl. rewrite Hpr. simpl. rewrite Haws. simpl.
  destruct (str_contains account_id s); simpl; [|done].
  rewrite Hrole. simpl. rewrite <- Hdoc. by destruct r.
Qed.

(** ** Construction of the consumer *)

Section construction.
Context {K : Constants}.

(** X13: with a level name that [logging] knows, a region and a role that
    can be assumed, construction returns a consumer that has the role ARN of
    the data mesh account, the region and no consumer account id yet; its
    tracker is made from the credentials of the assumed session and the
    region; the session is named [UserId-Account-date]; the requests are
    [GetCallerIdentity], [AssumeRole] and the construction of the tracker,
    and the IAM side of the account is untouched. *)
Theorem init_with_region (data_mesh_account_id log_level region : string) (w : world) :
  log_level ∈ level_names →
  AWS_REGION w = Some region →
  get_datamesh_consumer_role_arn data_mesh_account_id ∈ assumable w →
  ∃ self w',
    __init__ data_mesh_account_id log_level w = (Ok self, w')
    ∧ _data_consumer_role_arn self = get_datamesh_consumer_role_arn data_mesh_account_id
    ∧ _current_region self = Some region
    ∧ _data_consumer_account_id self = None
    ∧ tracker_credentials (_subscription_tracker self)
      = Credentials (_data_mesh_sts_session self)
    ∧ tracker_region_name (_subscription_tracker self) = Some region
    ∧ new_events w w'
      = [(GetCallerIdentity, None);
         (AssumeRole (get_datamesh_consumer_role_arn data_mesh_account_id)
            (user_id w +:+ "-" +:+ account w +:+ "-" +:+ today w), None);
         (NewSubscriberTracker (Credentials (_data_mesh_sts_session self))
            (Some region) log_level, None)]
    ∧ roles w' = roles w ∧ policies w' = policies w
    ∧ users w' = users w ∧ groups w' = groups w.
Proof.
  intros Hlevel Hregion Hrole.
  unfold __init__, getenv_AWS_REGION, logger_setLevel, get_caller_identity, now_Ymd,
    assume_role, SubscriberTracker_new.
  rewrite bool_decide_eq_true_2 by exact Hlevel.
  unfold_monad. simpl. rewrite Hregion.
  rewrite bool_decide_eq_true_2 by done.
  eexists _, _. split; [reflexivity|]. simpl. repeat split.
  apply new_events_app. simpl. by rewrite <- !app_assoc.
Qed.

(** X14: with a level name that [logging] knows, when the role cannot be
    assumed, the exception of [assume_role] comes out of the constructor as
    it is, with or without a region, after [GetCallerIdentity] and the
    refused [AssumeRole]; no tracker is constructed. *)
Theorem init_assume_role_refused (data_mesh_account_id log_level : string)
    (w w1 : world) (e : exn) :
  log_level ∈ level_names →
  assume_role (get_datamesh_consumer_role_arn data_mesh_account_id)
    (user_id w +:+ "-" +:+ account w +:+ "-" +:+ today w)
    (record GetCallerIdentity None w) = (Raise e, w1) →
  __init__ data_mesh_account_id log_level w = (Raise e, w1)
  ∧ new_events w w1
    = [(GetCallerIdentity, None);
       (AssumeRole (get_datamesh_consumer_role_arn data_mesh_account_id)
          (user_id w +:+ "-" +:+ account w +:+ "-" +:+ today w), Some e)].
Proof.
  intros Hlevel. unfold __init__, getenv_AWS_REGION, logger_setLevel,
    get_caller_identity, now_Ymd.
  rewrite bool_decide_eq_true_2 by exact Hlevel.
  unfold_monad. simpl. intros Hassume. rewrite Hassume. split; [done|].
  unfold assume_role, answer, refuse in Hassume.
  case_bool_decide; [discriminate|]. simplify_eq.
  apply new_events_app. simpl. by rewrite <- !app_assoc.
Qed.

(** X19: a level name that [logging] does not know ends construction with
    the [ValueError] of [setLevel] before any request is sent: the account
    and its log are as they were, with or without a region. *)
Theorem init_unknown_level (data_mesh_account_id log_level : string) (w : world) :
  log_level ∉ level_names →
  __init__ data_mesh_account_id log_level w = (Raise ValueError, w).
Proof.
  intros Hlevel. unfold __init__, getenv_AWS_REGION, logger_setLevel.
  rewrite bool_decide_eq_false_2 by exact Hlevel.
  reflexivity.
Qed.

End construction.

Lemma init_with_region_witness :
  ∃ self w',
    __init__ (K := example_constants) "999999999999" "INFO" account_in_region
    = (Ok self, w')
    ∧ _data_consumer_role_arn self
      = "arn:aws:iam::999999999999:role/AwsDataMesh/DataMeshAdminConsumer"
    ∧ _current_region self = Some "eu-west-1".
Proof.
  destruct (init_with_region (K := example_constants) "999999999999" "INFO"
              "eu-west-1" account_in_region)
    as (self & w' & Hrun & Harn & Hregion & _).
  - unfold level_names. set_solver.
  - reflexivity.
  - vm_compute. set_solver.
  - by exists self, w'.
Defined.

Lemma init_assume_role_refused_witness :
  __init__ (K := example_constants) "888888888888" "INFO" fresh_account
  = (Raise (ClientError "AccessDenied"),
     record
       (AssumeRole "arn:aws:iam::888888888888:role/AwsDataMesh/DataMeshAdminConsumer"
          "AIDAEXAMPLE-111111111111-2021-10-01")
       (Some (ClientError "AccessDenied")) (record GetCallerIdentity None fresh_account)).
Proof.
  apply (init_assume_role_refused (K := example_constants) "888888888888" "INFO"
           fresh_account).
  - unfold level_names. set_solver.
  - vm_compute. reflexivity.
Defined.

Lemma init_unknown_level_witness :
  __init__ (K := example_constants) "999999999999" "info" account_in_region
  = (Raise ValueError, account_in_region).
Proof.
  apply (init_unknown_level (K := example_constants) "999999999999" "info"
           account_in_region).
  unfold level_names. intros Hin.
  repeat (apply elem_of_cons in Hin as [Hin|Hin]; [discriminate Hin|]).
  by apply elem_of_nil in Hin.
Defined.

(** ** initialize_consumer_account *)

Lemma extends_record (c : call) (o : option exn) (w : world) : extends w (record c o w).
Proof. by repeat split. Qed.

Lemma attach_group_policy_ok g pa (w w1 : world) (u : unit) :
  attach_group_policy g pa w = (Ok u, w1) → pa ∈ attachable w.
Proof.
  unfold attach_group_policy, answer, refuse.
  destruct (groups w !! g); [|discriminate]. by case_bool_decide.
Qed.

Section initialize.
Context {K : Constants}.

Lemma create_assume_role_policy_arn acc name ra (w w1 : world) (x : string) :
  account w = acc →
  create_assume_role_policy acc name ra w = (Ok x, w1) →
  x = "arn:aws:iam::" +:+ acc +:+ ":policy" +:+ DATA_MESH_IAM_PATH +:+ name.
Proof.
  intros <-. unfold create_assume_role_policy, create_policy.
  rewrite create_assume_role_doc_resource. unfold_monad. simpl.
  destruct (policies w !! name); simpl; by intros [= <- _].
Qed.

Lemma configure_iam_extends pn pd pt rn rd acc cfg additional :
  preserves extends (configure_iam pn pd pt rn rd acc cfg additional).
Proof.
  unfold configure_iam, create_assume_role_policy, generate_policy.
  preserves_steps; eauto with iam.
Qed.

(** The method, as the sequence of its steps. *)
Lemma initialize_consumer_account_steps (self : DataMeshConsumer) (w : world) :
  initialize_consumer_account (self, w)
  = match roles w !! DATA_MESH_ADMIN_CONSUMER_ROLENAME with
    | None =>
        (Raise (PyException "Function should be run in the Data Consumer Account"),
         (self,
          record (GetRole DATA_MESH_ADMIN_CONSUMER_ROLENAME)
            (Some NoSuchEntityException) w))
    | Some _ =>
        let w0 :=
          record GetCallerIdentity None
            (record (GetRole DATA_MESH_ADMIN_CONSUMER_ROLENAME) None w) in
        let self' :=
          {| _data_mesh_account_id := _data_mesh_account_id self;
             _data_consumer_role_arn := _data_consumer_role_arn self;
             _data_consumer_account_id := Some (account w);
             _data_mesh_sts_session := _data_mesh_sts_session self;
             _current_region := _current_region self;
             _log_level := _log_level self;
             _subscription_tracker := _subscription_tracker self |} in
        match
          configure_iam CONSUMER_POLICY_NAME
            "IAM Policy enabling Accounts to Assume the DataMeshAdminConsumer Role"
            "consumer_policy.pystache" DATA_MESH_CONSUMER_ROLENAME
            "Role to be used to update S3 Bucket Policies for access by the Data Mesh Account"
            (account w) None None w0
        with
        | (Raise e, w1) => (Raise e, (self', w1))
        | (Ok consumer_iam, w1) =>
            match
              create_assume_role_policy (account w) "AssumeDataMeshAdminConsumer"
                (_data_consumer_role_arn self) w1
            with
            | (Raise e, w2) => (Raise e, (self', w2))
            | (Ok policy_arn, w2) =>
                match
                  attach_group_policy (DATA_MESH_CONSUMER_ROLENAME +:+ "Group")
                    policy_arn w2
                with
                | (Raise e, w3) => (Raise e, (self', w3))
                | (Ok _, w3) => (Ok consumer_iam, (self', w3))
                end
            end
        end
    end.
Proof.
  unfold initialize_consumer_account, _check_acct, self_, set_data_consumer_account_id,
    get_caller_identity.
  unfold_monad. rewrite validate_correct_account_run.
  destruct (roles w !! DATA_MESH_ADMIN_CONSUMER_ROLENAME); simpl; [|done].
  destruct (configure_iam _ _ _ _ _ _ _ _ _) as [[consumer_iam|e] w1]; simpl; [|done].
  destruct (create_assume_role_policy _ _ _ w1) as [[policy_arn|e] w2]; simpl; [|done].
  by destruct (attach_group_policy _ _ w2) as [[[]|e] w3].
Qed.

(** X15: what a call of [initialize_consumer_account] that returns leaves
    behind: the account id of the caller is recorded on the consumer, the
    administrative role existed, the consumer's user is in the consumer
    group, the policy of the template is attached to the consumer role and
    to the group, the policy [AssumeDataMeshAdminConsumer] is attached to
    the group, and the ARN returned is the ARN of the consumer role. *)
Theorem initialize_consumer_account_wires (self self' : DataMeshConsumer)
    (w w' : world) (arn : string) :
  initialize_consumer_account (self, w) = (Ok arn, (self', w')) →
  _data_consumer_account_id self' = Some (account w)
  ∧ is_Some (roles w !! DATA_MESH_ADMIN_CONSUMER_ROLENAME)
  ∧ ∃ g r,
      groups w' !! (DATA_MESH_CONSUMER_ROLENAME +:+ "Group") = Some g
      ∧ DATA_MESH_CONSUMER_ROLENAME ∈ GroupUsers g
      ∧ ("arn:aws:iam::" +:+ account w +:+ ":policy" +:+ DATA_MESH_IAM_PATH
         +:+ CONSUMER_POLICY_NAME) ∈ GroupAttachedPolicies g
      ∧ ("arn:aws:iam::" +:+ account w +:+ ":policy" +:+ DATA_MESH_IAM_PATH
         +:+ "AssumeDataMeshAdminConsumer") ∈ GroupAttachedPolicies g
      ∧ roles w' !! DATA_MESH_CONSUMER_ROLENAME = Some r
      ∧ RoleArn r = arn
      ∧ ("arn:aws:iam::" +:+ account w +:+ ":policy" +:+ DATA_MESH_IAM_PATH
         +:+ CONSUMER_POLICY_NAME) ∈ RoleAttachedPolicies r.
Proof.
  rewrite initialize_consumer_account_steps.
  destruct (roles w !! DATA_MESH_ADMIN_CONSUMER_ROLENAME) as [admin|];
    [|discriminate].
  cbv zeta.
  destruct (configure_iam _ _ _ _ _ _ _ _ _) as [[consumer_iam|e] w1] eqn:E1;
    [|discriminate].
  destruct (create_assume_role_policy _ _ _ w1) as [[policy_arn|e] w2] eqn:E2;
    [|discriminate].
  destruct (attach_group_policy _ _ w2) as [[[]|e] w3] eqn:E3; [|discriminate].
  intros [= -> <- ->]. split; [done|]. split; [done|].
  pose proof (preserves_run _ _ _ _ _
                (configure_iam_extends _ _ _ _ _ _ _ _) E1) as (Hacc & _).
  apply configure_iam_wired in E1 as (g1 & r1 & Hg1 & Hmember & Hgp & Hr1 & Harn & Hrp);
    [|done].
  pose proof (preserves_run _ _ _ _ _
                (create_assume_role_policy_keeps_groups _ _ _) E2) as G2.
  pose proof (preserves_run _ _ _ _ _
                (create_assume_role_policy_keeps_roles _ _ _) E2) as R2.
  apply create_assume_role_policy_arn in E2 as ->; [|exact Hacc].
  destruct (attach_group_policy_attached _ _ _ _ _ E3)
    as (g2 & g3 & Hg2 & Hg3 & Husers & Hattached & R3).
  unfold kept in *. rewrite G2, Hg1 in Hg2. injection Hg2 as <-.
  exists g3, r1. split; [done|]. split; [by rewrite Husers|].
  split; [rewrite Hattached; by apply add_once_incl|].
  split; [rewrite Hattached; apply add_once_elem|].
  split; [by rewrite R3, R2|]. by split.
Qed.

(** X16: a call of [initialize_consumer_account] that returned can be
    repeated: the second call, on the consumer and the account the first one
    left, returns the same role ARN. *)
Theorem initialize_consumer_account_twice (self self1 : DataMeshConsumer)
    (w w1 : world) (arn : string) :
  initialize_consumer_account (self, w) = (Ok arn, (self1, w1)) →
  ∃ self2 w2, initialize_consumer_account (self1, w1) = (Ok arn, (self2, w2)).
Proof.
  rewrite initialize_consumer_account_steps.
  destruct (roles w !! DATA_MESH_ADMIN_CONSUMER_ROLENAME) as [admin|] eqn:Hadmin;
    [|discriminate].
  cbv zeta.
  destruct (configure_iam _ _ _ _ _ _ _ _ _) as [[consumer_iam|e] wa] eqn:E1;
    [|discriminate].
  destruct (create_assume_role_policy _ _ _ wa) as [[policy_arn|e] wb] eqn:E2;
    [|discriminate].
  destruct (attach_group_policy _ _ wb) as [[[]|e] wc] eqn:E3; [|discriminate].
  intros [= -> <- ->].
  (* what the first call left *)
  pose proof (preserves_run _ _ _ _ _
                (configure_iam_extends _ _ _ _ _ _ _ _) E1) as X1.
  pose proof (preserves_run _ _ _ _ _
                (create_assume_role_policy_extends _ _ _) E2) as X2.
  pose proof (preserves_run _ _ _ _ _ (extends_attach_group_policy _ _) E3) as X3.
  pose proof (configure_iam_provisions _ _ _ _ _ (account w) _ _
                (record GetCallerIdentity None
                   (record (GetRole DATA_MESH_ADMIN_CONSUMER_ROLENAME) None w))
                _ _ eq_refl E1) as Hprov.
  pose proof (create_assume_role_policy_ok _ _ _ _ _ _ E2) as Hpolicy.
  apply create_assume_role_policy_arn in E2 as ->; [|apply X1].
  apply attach_group_policy_ok in E3.
  assert (Hstart : extends w w1).
  { etrans; [|exact X3]. etrans; [|exact X2]. etrans; [|exact X1].
    etrans; apply extends_record. }
  assert (Hacc : account w1 = account w) by apply Hstart.
  assert (Hadmin1 : is_Some (roles w1 !! DATA_MESH_ADMIN_CONSUMER_ROLENAME)).
  { destruct Hstart as (_ & _ & _ & _ & _ & _ & Hroles & _).
    specialize (Hroles DATA_MESH_ADMIN_CONSUMER_ROLENAME (RoleArn admin)).
    rewrite Hadmin in Hroles. specialize (Hroles eq_refl).
    by destruct (roles w1 !! DATA_MESH_ADMIN_CONSUMER_ROLENAME). }
  (* the second call *)
  rewrite initialize_consumer_account_steps.
  destruct Hadmin1 as [admin1 ->]. cbv zeta. rewrite Hacc.
  set (w0 := record GetCallerIdentity None _).
  assert (X0 : extends wb w0).
  { etrans; [exact X3|]. etrans; apply extends_record. }
  eapply provisioned_extends in Hprov; [|etrans; [exact X2|exact X0]].
  destruct (configure_iam_provisioned _
              "IAM Policy enabling Accounts to Assume the DataMeshAdminConsumer Role"
              _ _
              "Role to be used to update S3 Bucket Policies for access by the Data Mesh Account"
              _ None None _ _ Hprov) as (wa' & E1').
  rewrite E1'.
  pose proof (preserves_run _ _ _ _ _
                (configure_iam_extends _ _ _ _ _ _ _ _) E1') as Xa.
  assert (Xb : extends wb wa') by (by etrans).
  destruct Xb as (_ & _ & Hpolicies & Hattachable & _).
  eapply provisioned_extends in Hprov; [|exact Xa].
  destruct Hprov as (_ & _ & _ & _ & Hgroup & _).
  rewrite create_assume_role_policy_conflict
    by (apply elem_of_dom; set_solver).
  match goal with
  | |- context [attach_group_policy ?g ?pa ?w2] =>
      destruct (attach_group_policy_again g pa w2) as (w3 & ->);
      [exact Hgroup|simpl; set_solver|]
  end.
  by eexists _, _.
Qed.

End initialize.

(** ** flatten_default_tags *)

Lemma item_get_set_eq (k : string) (v : pyval) (out : list (pyval * pyval)) :
  item_get (PStr k) (item_set (PStr k) v out) = Some v.
Proof.
  induction out as [|[k' v'] out IH]; simpl.
  - by rewrite String.eqb_refl.
  - destruct (key_eqb k' (PStr k)) eqn:Hk; simpl; by rewrite Hk.
Qed.

Lemma item_get_set_ne (k k' : string) (v : pyval) (out : list (pyval * pyval)) :
  k ≠ k' → item_get (PStr k') (item_set (PStr k) v out) = item_get (PStr k') out.
Proof.
  intros Hne. induction out as [|[k0 v0] out IH]; simpl.
  - destruct (String.eqb_spec k k'); done.
  - destruct (key_eqb k0 (PStr k)) eqn:Hk; simpl; [|by rewrite IH].
    destruct k0 as [|s| |]; simpl in *; try done.
    apply String.eqb_eq in Hk as ->. by destruct (String.eqb_spec k k').
Qed.

Lemma item_set_keys (k : string) (v : pyval) (out : list (pyval * pyval)) :
  (item_set (PStr k) v out).*1
  = match item_get (PStr k) out with
    | Some _ => out.*1
    | None => out.*1 ++ [PStr k]
    end.
Proof.
  induction out as [|[k0 v0] out IH]; [done|]. cbn [item_set item_get].
  destruct (key_eqb k0 (PStr k)) eqn:Hk; [done|].
  rewrite !fmap_cons, IH. by destruct (item_get (PStr k) out).
Qed.

Lemma item_get_None (k : string) (out : list (pyval * pyval)) :
  item_get (PStr k) out = None → PStr k ∉ out.*1.
Proof.
  induction out as [|[k0 v0] out IH]; simpl; [set_solver|].
  destruct (key_eqb k0 (PStr k)) eqn:Hk; [done|]. intros Hget.
  apply not_elem_of_cons. split; [|by apply IH].
  intros <-. simpl in Hk. by rewrite String.eqb_refl in Hk.
Qed.

Section flatten_facts.
Context {K : Constants}.

Lemma flatten_tags_fold (tags : list (string * pyval)) (output : list (pyval * pyval)) :
  flatten_tags (tag <$> tags) output
  = Ok (fold_left (fun out e => item_set (PStr e.1) e.2 out) tags output).
Proof.
  revert output. induction tags as [|[k v] tags IH]; intros output; [done|].
  simpl. unfold_monad. simpl. apply IH.
Qed.

(** X17: when [DEFAULT_TAGS] is a list of [Key]/[Value] dicts with string
    keys, [flatten_default_tags] returns one dict that holds every key once,
    under the value of the last tag that has the key. *)
Theorem flatten_default_tags_last_wins (tags : list (string * pyval)) :
  DEFAULT_TAGS = PList (tag <$> tags) →
  ∃ output,
    flatten_default_tags = Ok output
    ∧ NoDup output.*1
    ∧ ∀ k, item_get (PStr k) output
           = snd <$> last (filter (fun e => e.1 = k) tags).
Proof.
  intros Htags. unfold flatten_default_tags. rewrite Htags. simpl.
  unfold mbind, res_bind. rewrite flatten_tags_fold. eexists. split; [reflexivity|].
  clear Htags. induction tags as [|[k v] tags IH] using rev_ind.
  - split; [constructor|]. done.
  - rewrite fold_left_app. simpl. destruct IH as [Hnodup Hget]. split.
    + rewrite item_set_keys. case_match eqn:Hk; [done|].
      apply NoDup_app. split; [done|]. split; [|apply NoDup_singleton].
      intros x Hx ->%list_elem_of_singleton. by apply item_get_None in Hk.
    + intros k'. rewrite filter_app, filter_cons, filter_nil. simpl.
      case_decide as Hkk'.
      * subst k'. rewrite last_snoc. simpl. apply item_get_set_eq.
      * rewrite app_nil_r, item_get_set_ne by done. apply Hget.
Qed.

(** X18: a tag that is not a dict, after any number of well-formed tags,
    ends [flatten_default_tags] with [AttributeError]. *)
Theorem flatten_default_tags_not_a_dict (tags : list (string * pyval)) (t : pyval)
    (rest : list pyval) :
  DEFAULT_TAGS = PList ((tag <$> tags) ++ t :: rest) →
  (∀ kv, t ≠ PDict kv) →
  flatten_default_tags = Raise AttributeError.
Proof.
  intros Htags Ht. unfold flatten_default_tags. rewrite Htags. simpl.
  unfold mbind, res_bind. clear Htags. generalize (@nil (pyval * pyval)).
  induction tags as [|[k v] tags IH]; intros output; simpl.
  - unfold_monad. destruct t as [|s|l|kv]; try done. by destruct (Ht kv).
  - unfold_monad. simpl. apply IH.
Qed.

End flatten_facts.

Lemma flatten_default_tags_last_wins_witness :
  ∃ output,
    flatten_default_tags (K := example_constants) = Ok output
    ∧ NoDup output.*1
    ∧ ∀ k, item_get (PStr k) output
           = snd <$> last (filter (fun e => e.1 = k) [("Solution", PStr "DataMeshUtils")]).
Proof.
  apply (flatten_default_tags_last_wins (K := example_constants)
           [("Solution", PStr "DataMeshUtils")]).
  reflexivity.
Defined.

(** ** Further runs of the examples *)


Lemma configure_iam_malformed_template_witness :
  configure_iam (K := example_constants) "DataMeshConsumerPolicy" ""
    "consumer_policy.pystache" "DataMeshConsumer" "" "111111111111" None None
    account_with_empty_template
  = (Raise (ClientError "MalformedPolicyDocument"),
     record (CreatePolicy "DataMeshConsumerPolicy" "/AwsDataMesh/" (Rendered "{}"))
       (Some (ClientError "MalformedPolicyDocument")) account_with_empty_template).
Proof.
  apply (configure_iam_malformed_template (K := example_constants)
           "DataMeshConsumerPolicy" "" "consumer_policy.pystache" "DataMeshConsumer" ""
           "111111111111" None None account_with_empty_template "{}").
  - reflexivity.
  - vm_compute. reflexivity.
Defined.

Lemma create_assume_role_policy_resolves_witness :
  (create_assume_role_policy (K := example_constants) "111111111111"
     "AssumeDataMeshAdminConsumer" "arn:aws:iam::999999999999:role/R" fresh_account).1
  = Ok ("arn:aws:iam::" +:+ "111111111111" +:+ ":policy" +:+ "/AwsDataMesh/"
        +:+ "AssumeDataMeshAdminConsumer").
Proof.
  apply (create_assume_role_policy_resolves (K := example_constants) "111111111111"
           "AssumeDataMeshAdminConsumer" "arn:aws:iam::999999999999:role/R"
           fresh_account).
  reflexivity.
Defined.

Lemma create_assume_role_policy_keeps_existing_witness :
  policies
    (create_assume_role_policy (K := example_constants) "111111111111"
       "AssumeDataMeshConsumer" "arn:aws:iam::999999999999:role/R" first_run.2).2
  = policies first_run.2.
Proof.
  apply (create_assume_role_policy_keeps_existing (K := example_constants)
           "111111111111" "AssumeDataMeshConsumer" "arn:aws:iam::999999999999:role/R"
           first_run.2).
  vm_compute. by eexists.
Defined.

Lemma add_aws_trust_to_role_missing_role_witness :
  add_aws_trust_to_role "222222222222" "DataMeshManager" fresh_account
  = (Raise NoSuchEntityException,
     record (GetRole "DataMeshManager") (Some NoSuchEntityException)
       (record (GetRole "DataMeshManager") (Some NoSuchEntityException) fresh_account)).
Proof.
  apply (add_aws_trust_to_role_missing_role "222222222222" "DataMeshManager"
           fresh_account).
  reflexivity.
Defined.

Lemma add_aws_trust_to_role_twice_witness :
  ∃ w1 w2,
    add_aws_trust_to_role "222222222222" "DataMeshManager" account_with_manager
    = (Ok (), w1)
    ∧ add_aws_trust_to_role "222222222222" "DataMeshManager" w1 = (Ok (), w2)
    ∧ AssumeRolePolicyDocument <$> roles w2 !! "DataMeshManager"
      = AssumeRolePolicyDocument <$> roles w1 !! "DataMeshManager".
Proof.
  apply (add_aws_trust_to_role_twice "222222222222" "DataMeshManager"
           account_with_manager manager_role [PStr "333333333333"]);
    reflexivity.
Defined.

Lemma add_aws_trust_to_role_single_principal_witness :
  add_aws_trust_to_role "222222222222" "DataMeshManager" account_with_single_principal
  = (Raise AttributeError,
     record (GetRole "DataMeshManager") None
       (record (GetRole "DataMeshManager") None account_with_single_principal)).
Proof.
  apply (add_aws_trust_to_role_single_principal "222222222222" "DataMeshManager"
           account_with_single_principal single_principal_role
           "arn:aws:iam::333333333333:root");
    reflexivity.
Defined.

Lemma initialize_consumer_account_wires_witness :
  _data_consumer_account_id first_initialize.2.1 = Some "111111111111".
Proof.
  apply (initialize_consumer_account_wires (K := example_constants) example_consumer
           first_initialize.2.1 consumer_account first_initialize.2.2
           "arn:aws:iam::111111111111:role/AwsDataMesh/DataMeshConsumer").
  vm_compute. reflexivity.
Defined.

Lemma initialize_consumer_account_twice_witness :
  ∃ self2 w2,
    initialize_consumer_account (K := example_constants)
      (first_initialize.2.1, first_initialize.2.2)
    = (Ok "arn:aws:iam::111111111111:role/AwsDataMesh/DataMeshConsumer", (self2, w2)).
Proof.
  apply (initialize_consumer_account_twice (K := example_constants) example_consumer
           first_initialize.2.1 consumer_account first_initialize.2.2).
  vm_compute. reflexivity.
Defined.

Lemma flatten_default_tags_not_a_dict_witness :
  flatten_default_tags (K := constants_with_bad_tag) = Raise AttributeError.
Proof.
  apply (flatten_default_tags_not_a_dict (K := constants_with_bad_tag)
           [("Solution", PStr "DataMeshUtils")] (PStr "Owner") []).
  - reflexivity.
  - discriminate.
Defined.
